(** * Copyous clipboard manager: capture, classification and replay

    A shallow embedding of [ClipboardManager] (lib/misc/clipboard.ts) and of
    the function [contentChecksum] that precedes it, together with the
    properties of the capture / classify / paste pipeline.

    JavaScript strings are sequences of UTF-16 code units; they are modelled
    as [list N], one element per code unit, so that [.length], [.slice],
    [.substring] and [.startsWith] count exactly what the source counts.
    The collaborators that live outside the file (GLib digests, [decodeURI],
    [Intl.Segmenter], the colour parser, highlight.js, the shell clipboard,
    the settings object, the history tracker) are taken as parameters,
    bundled in records.

    The manager lives on one event loop.  A handler is modelled as running
    to completion against one snapshot of the world: a function from the
    manager's state to its final state, the effects it had on its
    collaborators, in order, and whether it returned or threw. *)

From Stdlib Require Import ZArith NArith QArith Qminmax String Ascii List Bool Lia.
From stdpp Require Import base decidable option list gmap.

Close Scope Q_scope.
Local Open Scope Z_scope.

Set Default Proof Using "Type".

(** ** JavaScript strings *)

Abbreviation jsstring := (list N).
Abbreviation bytes := (list Byte.byte).

(** A literal: every character of an ASCII literal is one code unit. *)
Fixpoint lit (s : string) : jsstring :=
  match s with
  | EmptyString => []
  | String c r => N_of_ascii c :: lit r
  end.

Module JS.

(** [s.length] *)
Definition length (s : jsstring) : Z := Z.of_nat (List.length s).

(** [a === b] on strings *)
Definition str_eq (a b : jsstring) : bool := bool_decide (a = b).

(** Truthiness of a [string | null | undefined] value: the empty string,
    [null] and [undefined] are falsy. *)
Definition truthy (v : option jsstring) : bool :=
  match v with
  | Some (_ :: _) => true
  | _ => false
  end.

(** [s.startsWith(p)] *)
Fixpoint startsWith (s p : jsstring) : bool :=
  match p, s with
  | [], _ => true
  | _ :: _, [] => false
  | c :: p', d :: s' => bool_decide (c = d) && startsWith s' p'
  end.

(** WhiteSpace and LineTerminator code units of ECMA-262, the ones
    [String.prototype.trim] strips. *)
Definition is_space (c : N) : bool :=
  ((9 <=? c) && (c <=? 13) || (c =? 32) || (c =? 160) || (c =? 5760)
   || (8192 <=? c) && (c <=? 8202) || (c =? 8232) || (c =? 8233)
   || (c =? 8239) || (c =? 8287) || (c =? 12288) || (c =? 65279))%N.

Fixpoint trimStart (s : jsstring) : jsstring :=
  match s with
  | c :: r => if is_space c then trimStart r else s
  | [] => []
  end.

(** [s.trim()] *)
Definition trim (s : jsstring) : jsstring :=
  rev (trimStart (rev (trimStart s))).

(** [s.slice(0, n)] for a non-negative literal [n] *)
Definition slice_to (n : Z) (s : jsstring) : jsstring := take (Z.to_nat n) s.

(** [s.slice(n)] and [s.substring(n)] for a non-negative literal [n] *)
Definition slice_from (n : Z) (s : jsstring) : jsstring := drop (Z.to_nat n) s.

(** [s.charAt(0)]: the first code unit as a string, or the empty string *)
Definition charAt0 (s : jsstring) : jsstring := take 1 s.

(** [s.split('\n')]: never returns the empty array *)
Fixpoint split_nl (s : jsstring) : list jsstring :=
  match s with
  | [] => [[]]
  | c :: r =>
      if (c =? 10)%N then [] :: split_nl r
      else match split_nl r with
           | w :: ws => (c :: w) :: ws
           | [] => [[c]]
           end
  end.

(** [a.join('\n')] *)
Fixpoint join_nl (l : list jsstring) : jsstring :=
  match l with
  | [] => []
  | [x] => x
  | x :: r => x ++ 10%N :: join_nl r
  end.

(** [a.includes(x)] on an array of strings *)
Definition includes (a : list jsstring) (x : jsstring) : bool :=
  bool_decide (x ∈ a).

(** [a.find(p)] and [a.some(p)] *)
Definition find (p : jsstring -> bool) (a : list jsstring) : option jsstring :=
  List.find p a.
Definition some (p : jsstring -> bool) (a : list jsstring) : bool :=
  existsb p a.

End JS.

(** ** Completion of a call that may throw *)

Inductive Completion (A : Type) : Type :=
| Normal (a : A)
| Thrown.
Arguments Normal {A} a.
Arguments Thrown {A}.

(** [a.map(f)] where [f] may throw: the first exception aborts the map. *)
Fixpoint map_throwing {A B} (f : A -> Completion B) (l : list A) : Completion (list B) :=
  match l with
  | [] => Normal []
  | x :: r =>
      match f x with
      | Thrown => Thrown
      | Normal y =>
          match map_throwing f r with
          | Thrown => Thrown
          | Normal ys => Normal (y :: ys)
          end
      end
  end.

(** ** Data model (clipboard.ts, lines 18-36) *)

Module MimeTypes.
Definition Text : list jsstring :=
  [lit "text/plain"; lit "text/plain;charset=utf-8"; lit "STRING"; lit "UTF8_STRING"].
Definition Image : list jsstring :=
  [lit "image/png"; lit "image/jxl"; lit "image/webp"; lit "image/avif"; lit "image/jpeg"].
Definition File : list jsstring :=
  [lit "x-special-gnome-copied-files"; lit "text/uri-list"].
Definition Sensitive : list jsstring :=
  [lit "x-kde-passwordManagerHint"].
End MimeTypes.

Module ContentType.
Inductive t : Set := Text | Image | File.
#[global] Instance eq_dec : EqDecision t.
Proof. solve_decision. Defined.
End ContentType.

(** Modelled from the spec: [FileOperation] is declared in lib/misc/db.ts,
    which is not part of the sources at hand.  The spec gives the two
    operation tags {Copy, Cut} and their literal markers "copy" and "cut". *)
Module FileOperation.
Inductive t : Set := Copy | Cut.
Definition marker (o : t) : jsstring :=
  match o with Copy => lit "copy" | Cut => lit "cut" end.
#[global] Instance eq_dec : EqDecision t.
Proof. solve_decision. Defined.
End FileOperation.

Inductive ClipboardContent : Type :=
| TextContent (text : jsstring)
| ImageContent (mimetype : jsstring) (data : bytes) (checksum : jsstring)
| FileContent (paths : list jsstring) (operation : FileOperation.t).

Definition content_type (c : ClipboardContent) : ContentType.t :=
  match c with
  | TextContent _ => ContentType.Text
  | ImageContent _ _ _ => ContentType.Image
  | FileContent _ _ => ContentType.File
  end.

(** ** Library functions the manager calls *)

Record Platform : Type := {
  (** [GLib.compute_checksum_for_string(MD5, str, length)]; [None] is null *)
  compute_checksum_for_string : jsstring -> Z -> option jsstring;
  (** [GLib.compute_checksum_for_bytes(MD5, data)] *)
  compute_checksum_for_bytes : bytes -> option jsstring;
  (** [decodeURI(s)]; [Thrown] is a URIError *)
  decodeURI : jsstring -> Completion jsstring;
  (** [new TextDecoder().decode(b)] and [new TextEncoder().encode(s)] *)
  utf8_decode : bytes -> jsstring;
  utf8_encode : jsstring -> bytes;
}.

(** ** Fingerprint (lines 38-49) *)

Definition contentChecksum (P : Platform) (content : ClipboardContent)
  : Completion (option jsstring) :=
  match content with
  | TextContent text =>
      Normal (compute_checksum_for_string P text (JS.length text))
  | ImageContent _ _ checksum =>
      Normal (Some checksum)
  | FileContent paths _ =>
      match map_throwing
              (fun f => match decodeURI P f with
                        | Normal d => Normal (JS.slice_from 7 d)
                        | Thrown => Thrown
                        end) paths with
      | Thrown => Thrown
      | Normal ds =>
          let s := JS.join_nl ds in
          Normal (compute_checksum_for_string P s (JS.length s))
      end
  end.

(** ** Classified entries *)

(** Modelled from the spec: [ItemType] is declared in lib/common/constants.ts,
    which is not part of the sources at hand.  The spec lists the semantic
    types {Text, Code, Link, Character, Color, Image, File, Files}, and these
    are the members the manager names. *)
Module ItemType.
Inductive t : Set := Text | Code | Image | File | Files | Link | Character | Color.
#[global] Instance eq_dec : EqDecision t.
Proof. solve_decision. Defined.
End ItemType.

(** Modelled from the spec: [Metadata] is declared in lib/misc/db.ts, which
    is not part of the sources at hand.  The spec gives the optional
    metadata as the detected language's id and name for code and the
    operation tag for files, the two shapes [convertContent] builds. *)
Inductive Metadata : Type :=
| LanguageMeta (id name : jsstring)
| OperationMeta (operation : FileOperation.t).

(** Modelled from the spec: [ClipboardEntry] is declared in lib/misc/db.ts,
    which is not part of the sources at hand.  Of the fields the spec gives
    an entry, these are the ones the manager reads or writes: semantic type,
    canonical content and capture timestamp. *)
Record ClipboardEntry : Type := {
  entry_type : ItemType.t;
  entry_content : jsstring;
  entry_datetime : Z;
}.

(** ** highlight.js, as far as [convertContent] uses it *)

Record AutoHighlightResult : Type := {
  language : option jsstring;
  (** JavaScript numbers are modelled by exact rationals.  For the whole
      numbers highlight.js reports as relevance the comparison with 3 comes
      down to one between integers, see [score_threshold_integers]. *)
  relevance : Q;
}.

Record Language : Type := { name : option jsstring }.

Record HLJSApi : Type := {
  highlightAuto : jsstring -> AutoHighlightResult;
  getLanguage : jsstring -> option Language;
}.

(** ** Settings and the world seen by one handler run *)

Record Settings : Type := {
  sync_primary : bool;
  paste_on_copy : bool;
  update_date_on_copy : bool;
  incognito : bool;
  wmclass_exclusions : list jsstring;
  (** [get_child('character-item').get_int('max-characters')] *)
  max_characters : Z;
}.

Record World : Type := {
  settings : Settings;
  (** [wm_class] of [global.display.focus_window]; [None] without a window *)
  focus_window : option jsstring;
  (** [keyboard.purpose === Clutter.InputContentPurpose.TERMINAL] *)
  purpose_terminal : bool;
  (** the shell clipboard: [get_mimetypes], [get_content], [get_text] *)
  clipboard_mimetypes : list jsstring;
  clipboard_content : jsstring -> bytes;
  clipboard_text : option jsstring;
  (** [GLib.uri_is_valid(s, GLib.UriFlags.NONE)]; [Thrown] is a GLib.Error *)
  uri_is_valid : jsstring -> Completion bool;
  (** the segments of [new Intl.Segmenter().segment(s)], in order *)
  segment : jsstring -> list jsstring;
  (** whether [Color.parse(s)] is non-null *)
  Color_parse : jsstring -> bool;
  (** [ext.hljs]: null or undefined until highlight.js is loaded *)
  hljs : option HLJSApi;
  (** lines 373-387 as one call: create the images directory if absent,
      write [data] under the name [checksum] unless that file exists, and
      return its URI; [Thrown] when any of the file operations throws *)
  store_image : jsstring -> bytes -> Completion jsstring;
  (** [Gio.File.new_for_uri(uri).load_contents_async(null)] *)
  load_contents : jsstring -> Completion bytes;
  (** [content_type_get_mime_type(content_type_guess(path, contents)[0])] *)
  guess_mime_type : jsstring -> bytes -> option jsstring;
  (** [tracker.insert(type, text, metadata)]; [Normal None] when it declines *)
  tracker_insert : ItemType.t -> jsstring -> option Metadata
                   -> Completion (option ClipboardEntry);
  (** [GLib.DateTime.new_now_utc()] *)
  now : Z;
}.

(** ** Classification (lines 326-404) *)

(** The iterator over the segments: [next()] hands out the head. *)
Definition iterator_next (it : list jsstring) : option jsstring * list jsstring :=
  match it with
  | [] => (None, [])
  | x :: r => (Some x, r)
  end.

(** [!iterator.next().value]: a segment record is truthy, [undefined],
    handed out once the iterator is exhausted, is not. *)
Definition no_value (v : option jsstring) : bool :=
  match v with
  | None => true
  | Some _ => false
  end.

(** [for (let i = 0; i < maxCharacters; i++) iterator.next();] *)
Fixpoint advance (n : nat) (it : list jsstring) : list jsstring :=
  match n with
  | O => it
  | S k => advance k (snd (iterator_next it))
  end.

Definition convertContent (W : World) (content : ClipboardContent)
  : option (ItemType.t * jsstring * option Metadata) :=
  match content with
  | TextContent text =>
      let trimmed := JS.trim text in
      (* Link *)
      if JS.startsWith trimmed (lit "http")
         && match uri_is_valid W trimmed with Normal b => b | Thrown => false end
      then Some (ItemType.Link, text, None)
      else
      (* Character *)
      let iterator := segment W trimmed in
      let maxCharacters := max_characters (settings W) in
      let iterator := advance (Z.to_nat maxCharacters) iterator in
      if no_value (fst (iterator_next iterator))
      then Some (ItemType.Character, text, None)
      else
      (* Color *)
      if Color_parse W trimmed
      then Some (ItemType.Color, text, None)
      else
      (* Code *)
      let slice := JS.slice_to 10000 trimmed in
      let n := Qmax 1 (inject_Z (JS.length slice) / 100)%Q in
      match hljs W with
      | Some h =>
          let highlightResult := highlightAuto h slice in
          if JS.truthy (language highlightResult)
             && Qle_bool 3 (relevance highlightResult / n)%Q
          then
            let id := default [] (language highlightResult) in
            let name := match getLanguage h id with
                        | Some l => default id (name l)
                        | None => id
                        end in
            Some (ItemType.Code, text,
                  Some (LanguageMeta id
                          (if JS.length id <? JS.length name - 3
                           then JS.charAt0 id ++ JS.slice_from 1 id
                           else name)))
          else Some (ItemType.Text, text, None)
      | None => Some (ItemType.Text, text, None)
      end
  | ImageContent _ data checksum =>
      match store_image W checksum data with
      | Normal uri => Some (ItemType.Image, uri, None)
      | Thrown => None
      end
  | FileContent paths operation =>
      let metadata := OperationMeta operation in
      match paths with
      | [p] => Some (ItemType.File, p, Some metadata)
      | _ => Some (ItemType.Files, JS.join_nl paths, Some metadata)
      end
  end.

(** ** The manager's state and its effects *)

(** The mutable fields of [ClipboardManager], and the part of the GLib main
    loop the manager acts on: the timeout sources it has installed that have
    neither fired nor been removed, and the id the loop hands out next. *)
Record State : Type := {
  signalId : Z;
  pasteSignalId : Z;
  prevClipboard : option (ContentType.t * jsstring);
  sources : gset Z;
  next_source : Z;
}.

Inductive ClipboardType : Set := CLIPBOARD | PRIMARY.

Inductive Key : Set := KEY_Control_L | KEY_Shift_L | KEY_V | KEY_v.

(** What a handler does to its collaborators, in order. *)
Inductive Effect : Type :=
| SetText (selection : ClipboardType) (text : jsstring)
| SetContent (mimetype : jsstring) (data : bytes)
| GetContent (mimetype : jsstring)
| GetText
| Insert (type : ItemType.t) (text : jsstring) (metadata : option Metadata)
| EmitClipboard (entry : ClipboardEntry)
| EmitText (text : jsstring)
| EmitImage (data : bytes) (width height : Z)
| SetDatetime (datetime : Z)
| Press (key : Key)
| Release (key : Key)
| TimeoutAdd (id : Z)
| SourceRemove (id : Z)
| Disconnect (id : Z)
| KeyboardDestroy
| LogError.

(** A run of a handler: final state, effects, and how it completed. *)
Record Run (A : Type) : Type := mkRun {
  final : State;
  trace : list Effect;
  result : Completion A;
}.
Arguments mkRun {A} final trace result.
Arguments final {A} r.
Arguments trace {A} r.
Arguments result {A} r.

Definition M (A : Type) : Type := State -> Run A.

#[global] Instance M_ret : MRet M := λ A a s, mkRun s [] (Normal a).

#[global] Instance M_bind : MBind M := λ A B k m s,
  let r := m s in
  match result r with
  | Thrown => mkRun (final r) (trace r) Thrown
  | Normal a =>
      let r' := k a (final r) in
      mkRun (final r') (trace r ++ trace r') (result r')
  end.

Definition get : M State := fun s => mkRun s [] (Normal s).
Definition modify (f : State -> State) : M unit := fun s => mkRun (f s) [] (Normal tt).
Definition tell (e : Effect) : M unit := fun s => mkRun s [e] (Normal tt).
Definition throw {A} : M A := fun s => mkRun s [] Thrown.

(** [try { m } catch { h }] *)
Definition try_catch {A} (m : M A) (h : M A) : M A :=
  fun s =>
    let r := m s in
    match result r with
    | Normal a => r
    | Thrown =>
        let r' := h (final r) in
        mkRun (final r') (trace r ++ trace r') (result r')
    end.

Definition lift {A} (c : Completion A) : M A :=
  match c with
  | Normal a => mret a
  | Thrown => throw
  end.

Definition set_prevClipboard (v : option (ContentType.t * jsstring)) : M unit :=
  modify (fun s => {| signalId := signalId s; pasteSignalId := pasteSignalId s;
                      prevClipboard := v;
                      sources := sources s; next_source := next_source s |}).

Definition set_pasteSignalId (v : Z) : M unit :=
  modify (fun s => {| signalId := signalId s; pasteSignalId := v;
                      prevClipboard := prevClipboard s;
                      sources := sources s; next_source := next_source s |}).

Definition set_signalId (v : Z) : M unit :=
  modify (fun s => {| signalId := v; pasteSignalId := pasteSignalId s;
                      prevClipboard := prevClipboard s;
                      sources := sources s; next_source := next_source s |}).

(** [GLib.source_remove(id)]: the source, if pending, is destroyed. *)
Definition source_remove (id : Z) : M unit :=
  tell (SourceRemove id);;
  modify (fun s => {| signalId := signalId s; pasteSignalId := pasteSignalId s;
                      prevClipboard := prevClipboard s;
                      sources := sources s ∖ {[id]};
                      next_source := next_source s |}).

(** [GLib.timeout_add(priority, 250, callback)]: a new source with a fresh
    id is attached to the loop and its id returned. *)
Definition timeout_add : M Z :=
  s ← get;
  let id := next_source s in
  tell (TimeoutAdd id);;
  modify (fun s => {| signalId := signalId s; pasteSignalId := pasteSignalId s;
                      prevClipboard := prevClipboard s;
                      sources := {[id]} ∪ sources s;
                      next_source := id + 1 |});;
  mret id.

(** The manager right after its constructor ran: the owner-changed handler
    is connected under [sid], nothing was delivered, no paste is pending. *)
Definition initial (sid first_source : Z) : State :=
  {| signalId := sid; pasteSignalId := -1; prevClipboard := None;
     sources := ∅; next_source := first_source |}.

(** ** The manager's methods (lines 89-324) *)

Inductive SelectionType : Set :=
  SELECTION_PRIMARY | SELECTION_CLIPBOARD | SELECTION_DND.

#[global] Instance SelectionType_eq_dec : EqDecision SelectionType.
Proof. solve_decision. Defined.

Section Manager.

Variable P : Platform.
Variable W : World.

Definition destroy : M unit :=
  tell KeyboardDestroy;;
  s ← get;
  (if 0 <=? signalId s then tell (Disconnect (signalId s)) else mret tt);;
  (if 0 <=? pasteSignalId s then source_remove (pasteSignalId s) else mret tt);;
  set_signalId (-1);;
  set_pasteSignalId (-1).

Definition copyContent (content : ClipboardContent) : M unit :=
  checksum ← lift (contentChecksum P content);
  match checksum with
  | Some ((_ :: _) as checksum) =>
      set_prevClipboard (Some (content_type content, checksum));;
      match content with
      | TextContent text =>
          tell (SetText CLIPBOARD text);;
          if sync_primary (settings W)
          then tell (SetText PRIMARY text)
          else mret tt
      | ImageContent mimetype data _ =>
          tell (SetContent mimetype data)
      | FileContent paths _ =>
          let s := FileOperation.marker FileOperation.Copy
                     ++ 10%N :: JS.join_nl paths in
          let bytes := utf8_encode P s in
          tell (SetContent (lit "x-special-gnome-copied-files") bytes)
      end
  | _ => mret tt
  end.

(** The callback of the paste timeout (lines 133-151). *)
Definition pasteCallback : M unit :=
  (if purpose_terminal W
   then tell (Press KEY_Control_L);; tell (Press KEY_Shift_L);;
        tell (Press KEY_V);; tell (Release KEY_V);;
        tell (Release KEY_Shift_L);; tell (Release KEY_Control_L)
   else tell (Press KEY_Control_L);; tell (Press KEY_v);;
        tell (Release KEY_v);; tell (Release KEY_Control_L));;
  set_pasteSignalId (-1).

Definition pasteContent (content : ClipboardContent) : M unit :=
  copyContent content;;
  if negb (paste_on_copy (settings W)) then mret tt
  else
    s ← get;
    (if 0 <=? pasteSignalId s then source_remove (pasteSignalId s) else mret tt);;
    id ← timeout_add;
    set_pasteSignalId id.

Definition copyText (s : jsstring) : M unit :=
  copyContent (TextContent s);;
  tell (EmitText s).

Definition pasteText (s : jsstring) : M unit :=
  pasteContent (TextContent s).

Definition copyPng (data : bytes) (width height : Z) : M unit :=
  match compute_checksum_for_bytes P data with
  | Some ((_ :: _) as checksum) =>
      copyContent (ImageContent (lit "image/png") data checksum);;
      tell (EmitImage data width height)
  | _ => mret tt
  end.

Definition pasteEntry (entry : ClipboardEntry) : M unit :=
  (if update_date_on_copy (settings W)
   then tell (SetDatetime (now W))
   else mret tt);;
  match entry_type entry with
  | ItemType.Text | ItemType.Code | ItemType.Link
  | ItemType.Character | ItemType.Color =>
      pasteContent (TextContent (entry_content entry))
  | ItemType.Image =>
      try_catch
        (contents ← lift (load_contents W (entry_content entry));
         match guess_mime_type W (entry_content entry) contents with
         | Some ((_ :: _) as mimetype) =>
             pasteContent (ImageContent mimetype contents [])
         | _ => mret tt
         end)
        (mret tt)
  | ItemType.File | ItemType.Files =>
      let paths := JS.split_nl (entry_content entry) in
      pasteContent (FileContent paths FileOperation.Copy)
  end.

Definition shouldSave : bool :=
  match focus_window W with
  | Some wm_class =>
      if JS.includes (wmclass_exclusions (settings W)) wm_class then false
      else negb (incognito (settings W))
  | None => negb (incognito (settings W))
  end.

Definition getContent : M (option ClipboardContent) :=
  let mimeTypes := clipboard_mimetypes W in
  (* Sensitive *)
  if JS.some (fun value => JS.includes mimeTypes value) MimeTypes.Sensitive
  then mret None
  else
  (* Image *)
  match JS.find (fun value => JS.includes mimeTypes value) MimeTypes.Image with
  | Some ((_ :: _) as imageMimeType) =>
      tell (GetContent imageMimeType);;
      let bytes := clipboard_content W imageMimeType in
      if 0 <? Z.of_nat (length bytes) then
        match compute_checksum_for_bytes P bytes with
        | Some ((_ :: _) as checksum) =>
            mret (Some (ImageContent imageMimeType bytes checksum))
        | _ => mret None
        end
      else mret None
  | _ =>
  (* File *)
  match JS.find (fun value => JS.includes mimeTypes value) MimeTypes.File with
  | Some ((_ :: _) as fileMimeType) =>
      tell (GetContent fileMimeType);;
      let bytes := clipboard_content W fileMimeType in
      let text := JS.trim (utf8_decode P bytes) in
      match text with
      | _ :: _ =>
          let files :=
            List.filter (fun f => negb (JS.length f =? 0))
                        (map JS.trim (JS.split_nl text)) in
          match files with
          | f0 :: rest =>
              if JS.str_eq f0 (FileOperation.marker FileOperation.Copy)
              then mret (Some (FileContent rest FileOperation.Copy))
              else if JS.str_eq f0 (FileOperation.marker FileOperation.Cut)
              then mret (Some (FileContent rest FileOperation.Cut))
              else mret (Some (FileContent files FileOperation.Copy))
          | [] => mret (Some (FileContent files FileOperation.Copy))
          end
      | [] => mret None
      end
  | _ =>
  (* Text *)
  match JS.find (fun value => JS.includes mimeTypes value) MimeTypes.Text with
  | Some (_ :: _) =>
      tell GetText;;
      match clipboard_text W with
      | Some ((_ :: _) as text) =>
          match JS.trim text with
          | _ :: _ => mret (Some (TextContent text))
          | [] => mret None
          end
      | _ => mret None
      end
  | _ => mret None
  end end end.

Definition ownerChanged (selectionType : SelectionType) : M unit :=
  try_catch
    (if negb (bool_decide (selectionType = SELECTION_CLIPBOARD)) then mret tt
     else
       content ← getContent;
       match content with
       | None => mret tt
       | Some content =>
           checksum ← lift (contentChecksum P content);
           match checksum with
           | Some ((_ :: _) as checksum) =>
               s ← get;
               (* Check duplicate *)
               let duplicate :=
                 match prevClipboard s with
                 | Some (type, prevChecksum) =>
                     bool_decide (type = content_type content)
                       && JS.str_eq prevChecksum checksum
                     || bool_decide (type = ContentType.File)
                        && bool_decide (content_type content = ContentType.Text)
                        && JS.str_eq prevChecksum checksum
                 | None => false
                 end in
               if duplicate then mret tt
               else
                 set_prevClipboard (Some (content_type content, checksum));;
                 if negb shouldSave then mret tt
                 else
                   match convertContent W content with
                   | None => mret tt
                   | Some (type, text, metadata) =>
                       tell (Insert type text metadata);;
                       entry ← lift (tracker_insert W type text metadata);
                       match entry with
                       | Some entry => tell (EmitClipboard entry)
                       | None => mret tt
                       end
                   end
           | _ => mret tt
           end
       end)
    (tell LogError).

End Manager.

(** ** The manager on the main loop *)

(** What can happen to a live manager: one of its public methods is called,
    the selection changes owner, or the main loop dispatches one of the
    pending timeout sources.  Each event sees the world as it is then. *)
Inductive Event : Type :=
| EvDestroy
| EvCopyContent (W : World) (content : ClipboardContent)
| EvPasteContent (W : World) (content : ClipboardContent)
| EvCopyText (W : World) (s : jsstring)
| EvPasteText (W : World) (s : jsstring)
| EvCopyPng (W : World) (data : bytes) (width height : Z)
| EvPasteEntry (W : World) (entry : ClipboardEntry)
| EvOwnerChanged (W : World) (selectionType : SelectionType)
| EvTimeout (W : World) (id : Z).

(** Dispatch of the timeout source [id]: the callback runs and, since it
    returns [GLib.SOURCE_REMOVE], the loop destroys the source. *)
Definition dispatch_timeout (W : World) (id : Z) : M unit :=
  pasteCallback W;;
  modify (fun s => {| signalId := signalId s; pasteSignalId := pasteSignalId s;
                      prevClipboard := prevClipboard s;
                      sources := sources s ∖ {[id]};
                      next_source := next_source s |}).

Definition handle (P : Platform) (e : Event) : M unit :=
  match e with
  | EvDestroy => destroy
  | EvCopyContent W c => copyContent P W c
  | EvPasteContent W c => pasteContent P W c
  | EvCopyText W s => copyText P W s
  | EvPasteText W s => pasteText P W s
  | EvCopyPng W d w h => copyPng P W d w h
  | EvPasteEntry W e => pasteEntry P W e
  | EvOwnerChanged W t => ownerChanged P W t
  | EvTimeout W id => dispatch_timeout W id
  end.

(** Only a pending source can be dispatched. *)
Definition enabled (e : Event) (s : State) : Prop :=
  match e with
  | EvTimeout _ id => id ∈ sources s
  | _ => True
  end.

Inductive reachable (P : Platform) (s0 : State) : State -> Prop :=
| reachable_init : reachable P s0 s0
| reachable_step s e :
    reachable P s0 s -> enabled e s -> reachable P s0 (final (handle P e s)).

(** The main loop dispatches, one after the other, those of the sources
    [ids] that are still pending when their turn comes. *)
Fixpoint fire (W : World) (ids : list Z) : M unit :=
  match ids with
  | [] => mret tt
  | id :: r =>
      s ← get;
      (if bool_decide (id ∈ sources s) then dispatch_timeout W id else mret tt);;
      fire W r
  end.

(** Letting the scheduling delay pass: every pending source is dispatched. *)
Definition elapse (W : World) : M unit :=
  s ← get; fire W (elements (sources s)).

(** The synthetic key events of a trace, and the two paste sequences. *)
Definition is_key (e : Effect) : bool :=
  match e with
  | Press _ | Release _ => true
  | _ => false
  end.

Definition keystrokes (t : list Effect) : list Effect := List.filter is_key t.

Definition paste_sequence (terminal : bool) : list Effect :=
  if terminal
  then [Press KEY_Control_L; Press KEY_Shift_L; Press KEY_V;
        Release KEY_V; Release KEY_Shift_L; Release KEY_Control_L]
  else [Press KEY_Control_L; Press KEY_v; Release KEY_v; Release KEY_Control_L].

(** Effects on the history store and notifications to listeners. *)
Definition is_insert (e : Effect) : bool :=
  match e with Insert _ _ _ => true | _ => false end.

Definition is_emit (e : Effect) : bool :=
  match e with
  | EmitClipboard _ | EmitText _ | EmitImage _ _ _ => true
  | _ => false
  end.

(** Writes to the system clipboard. *)
Definition is_delivery (e : Effect) : bool :=
  match e with SetText _ _ | SetContent _ _ => true | _ => false end.

(** Requests to the clipboard backend for content. *)
Definition is_request (e : Effect) : bool :=
  match e with GetContent _ | GetText => true | _ => false end.

(** ** The classifier's stages, stated on their own *)

(** Link: the trimmed text starts with "http" and is a valid URI; a
    validator that throws counts as "not a link". *)
Definition link_stage (W : World) (trimmed : jsstring) : bool :=
  JS.startsWith trimmed (lit "http")
  && match uri_is_valid W trimmed with
     | Normal true => true
     | Normal false | Thrown => false
     end.

(** Number of grapheme clusters of the trimmed text. *)
Definition cluster_count (W : World) (trimmed : jsstring) : Z :=
  Z.of_nat (length (segment W trimmed)).

(** Character: no more clusters than the configured maximum (a negative
    maximum leaves room for no cluster at all). *)
Definition character_stage (W : World) (trimmed : jsstring) : bool :=
  cluster_count W trimmed <=? Z.max 0 (max_characters (settings W)).

Definition color_stage (W : World) (trimmed : jsstring) : bool :=
  Color_parse W trimmed.

(** The sample handed to the detector: at most the first 10,000 code units. *)
Definition code_sample (trimmed : jsstring) : jsstring := JS.slice_to 10000 trimmed.

(** Raw relevance divided by [max(1, sampleLength / 100)]. *)
Definition normalized_score (relevance : Q) (sampleLength : Z) : Q :=
  (relevance / Qmax 1 (inject_Z sampleLength / 100))%Q.

(** Code: the detector is loaded, names a language for the sample, and the
    normalized score reaches 3. *)
Definition code_detected (W : World) (trimmed : jsstring) : Prop :=
  ∃ h id,
    hljs W = Some h
    ∧ language (highlightAuto h (code_sample trimmed)) = Some id
    ∧ id ≠ []
    ∧ (3 <= normalized_score (relevance (highlightAuto h (code_sample trimmed)))
                             (JS.length (code_sample trimmed)))%Q.

#[global] Instance code_detected_dec W trimmed : Decision (code_detected W trimmed).
Proof.
  unfold code_detected.
  destruct (hljs W) as [h|]; [|right; intros (h & id & H & _); discriminate].
  destruct (language (highlightAuto h (code_sample trimmed))) as [id|] eqn:Hl;
    [|right; intros (h' & id & H & Hid & _); congruence].
  destruct (decide (id = [])) as [->|Hne];
    [right; intros (h' & id & H & Hid & Hn & _); congruence|].
  destruct (Qlt_le_dec
              (normalized_score (relevance (highlightAuto h (code_sample trimmed)))
                                (JS.length (code_sample trimmed))) 3) as [Hlt|Hle].
  - right. intros (h' & id' & H & Hid & _ & Hs).
    injection H as <-. apply Qlt_not_le in Hlt. contradiction.
  - left. exists h, id. auto.
Defined.

Definition code_stage (W : World) (trimmed : jsstring) : bool :=
  bool_decide (code_detected W trimmed).

(** The ordered stages of text classification; the first one that matches
    gives the type, and Text is what remains when none does. *)
Definition text_stages (W : World) : list (ItemType.t * (jsstring -> bool)) :=
  [ (ItemType.Link, link_stage W);
    (ItemType.Character, character_stage W);
    (ItemType.Color, color_stage W);
    (ItemType.Code, code_stage W) ].

Fixpoint first_match (stages : list (ItemType.t * (jsstring -> bool)))
    (otherwise : ItemType.t) (trimmed : jsstring) : ItemType.t :=
  match stages with
  | [] => otherwise
  | (type, matches) :: later =>
      if matches trimmed then type else first_match later otherwise trimmed
  end.

(** The type of a classification result, if there is one. *)
Definition result_type (r : option (ItemType.t * jsstring * option Metadata))
  : option ItemType.t :=
  match r with
  | Some (type, _, _) => Some type
  | None => None
  end.

(** The display name recorded for a Code entry, if the result is one. *)
Definition display_name (r : option (ItemType.t * jsstring * option Metadata))
  : option jsstring :=
  match r with
  | Some (ItemType.Code, _, Some (LanguageMeta _ name)) => Some name
  | _ => None
  end.

(** The detector's own name for a language, the id standing in when the
    detector has no entry or no name for it. *)
Definition detector_name (h : HLJSApi) (id : jsstring) : jsstring :=
  match getLanguage h id with
  | Some l => default id (name l)
  | None => id
  end.

(** ASCII capitalisation of the first code unit. *)
Definition capitalize (s : jsstring) : jsstring :=
  match s with
  | c :: r => (if (97 <=? c) && (c <=? 122) then c - 32 else c)%N :: r
  | [] => []
  end.

(** The string the File fingerprint is computed over: the decoded paths,
    each without its first seven code units (the "file://" scheme), joined
    by newlines. *)
Definition strip_scheme (path : jsstring) : jsstring := drop 7 path.

Definition digest_input (decoded : list jsstring) : jsstring :=
  JS.join_nl (map strip_scheme decoded).

(** The paste timer discipline: no source is pending unless the manager
    holds its id, and then it is the only one. *)
Definition timer_inv (s : State) : Prop :=
  0 < next_source s
  ∧ (pasteSignalId s = -1 ∧ sources s = ∅
     ∨ 0 < pasteSignalId s < next_source s ∧ sources s = {[pasteSignalId s]}).

(** ** Suppression, stated on its own *)

(** The capture of a payload of kind [kind] and fingerprint [fingerprint]
    repeats what the dedup slot holds: same kind and same fingerprint, or a
    file list that comes back as text with the same fingerprint. *)
Definition repeats (prev : option (ContentType.t * jsstring))
    (kind : ContentType.t) (fingerprint : jsstring) : Prop :=
  ∃ k, prev = Some (k, fingerprint)
       ∧ (k = kind ∨ k = ContentType.File ∧ kind = ContentType.Text).

(** A run that leaves the manager in state [s], hands nothing to the
    history store and notifies no listener. *)
Definition suppressed (r : Run unit) (s : State) : Prop :=
  final r = s
  ∧ result r = Normal tt
  ∧ List.filter is_insert (trace r) = []
  ∧ List.filter is_emit (trace r) = [].

(** ** Stand-ins for the collaborators, for running the model *)

Module Fixture.

(** A digest stand-in: it keeps the hashed prefix, so equal inputs collide
    and different ones do not. *)
Definition checksum_for_string (s : jsstring) (len : Z) : option jsstring :=
  Some (lit "md5:" ++ take (Z.to_nat len) s).

Definition checksum_for_bytes (b : bytes) : option jsstring :=
  Some (lit "md5:" ++ map Byte.to_N b).

Definition hex_value (c : N) : option N :=
  (if (48 <=? c) && (c <=? 57) then Some (c - 48)
   else if (65 <=? c) && (c <=? 70) then Some (c - 55)
   else if (97 <=? c) && (c <=? 102) then Some (c - 87)
   else None)%N.

(** The reserved characters [decodeURI] leaves escaped: ; / ? : @ & = + $ , # *)
Definition reserved (c : N) : bool :=
  bool_decide (c ∈ [59; 47; 63; 58; 64; 38; 61; 43; 36; 44; 35]%N).

(** [decodeURI] on escapes of ASCII characters; any other escape, or an
    incomplete one, is reported as a URIError. *)
Fixpoint decode_uri (s : jsstring) : Completion jsstring :=
  match s with
  | [] => Normal []
  | 37%N :: h1 :: h2 :: r =>
      match hex_value h1, hex_value h2, decode_uri r with
      | Some a, Some b, Normal d =>
          let c := (16 * a + b)%N in
          if (128 <=? c)%N then Thrown
          else if reserved c then Normal (37%N :: h1 :: h2 :: d)
          else Normal (c :: d)
      | _, _, _ => Thrown
      end
  | 37%N :: _ => Thrown
  | c :: r =>
      match decode_uri r with
      | Normal d => Normal (c :: d)
      | Thrown => Thrown
      end
  end.

Definition platform : Platform :=
  {| compute_checksum_for_string := checksum_for_string;
     compute_checksum_for_bytes := checksum_for_bytes;
     decodeURI := decode_uri;
     utf8_decode := map Byte.to_N;
     utf8_encode := fun s => omap Byte.of_N s |}.

(** A URI validator stand-in: "http://" or "https://" followed by at least
    one code unit, none of them a space or a control character. *)
Definition valid_uri (s : jsstring) : Completion bool :=
  let rest :=
    if JS.startsWith s (lit "http://") then drop 7 s
    else if JS.startsWith s (lit "https://") then drop 8 s
    else [] in
  match rest with
  | _ :: _ => if forallb (fun c => (32 <? c)%N) s then Normal true else Thrown
  | [] => Thrown
  end.

(** A segmenter stand-in that follows the grapheme cluster rules for
    surrogate pairs, combining marks U+0300..U+036F, the variation selector
    U+FE0F and zero-width-joiner sequences. *)
Definition high_surrogate (c : N) : bool := ((55296 <=? c) && (c <=? 56319))%N.
Definition low_surrogate (c : N) : bool := ((56320 <=? c) && (c <=? 57343))%N.
Definition extends (c : N) : bool :=
  ((768 <=? c) && (c <=? 879) || (c =? 65039) || (c =? 8205))%N.

Definition joins (c next : N) : bool :=
  extends next || (c =? 8205)%N || high_surrogate c && low_surrogate next.

Fixpoint clusters (s : jsstring) : list jsstring :=
  match s with
  | [] => []
  | c :: r =>
      match clusters r with
      | (d :: w) :: ws => if joins c d then (c :: d :: w) :: ws
                          else [c] :: (d :: w) :: ws
      | _ => [[c]]
      end
  end.

(** A colour parser stand-in: "#" followed by three or six hex digits. *)
Definition parses_as_color (s : jsstring) : bool :=
  match s with
  | 35%N :: r =>
      forallb (fun c => bool_decide (is_Some (hex_value c))) r
      && (bool_decide (length r = 3%nat) || bool_decide (length r = 6%nat))
  | _ => false
  end.

Definition count_unit (c : N) (s : jsstring) : Z :=
  Z.of_nat (length (List.filter (N.eqb c) s)).

(** A detector stand-in: markup when the sample opens with "<", scored by
    its angle brackets; otherwise script, scored by its semicolons and
    braces; no language when the score is zero.  The two language entries
    are the ones highlight.js ships for these ids. *)
Definition detect (sample : jsstring) : AutoHighlightResult :=
  match sample with
  | 60%N :: _ =>
      {| language := Some (lit "xml");
         relevance := inject_Z (count_unit 60 sample + count_unit 62 sample) |}
  | _ =>
      let score := count_unit 59 sample + count_unit 123 sample
                   + count_unit 125 sample in
      {| language := if score =? 0 then None else Some (lit "javascript");
         relevance := inject_Z score |}
  end.

Definition languages (id : jsstring) : option Language :=
  if JS.str_eq id (lit "xml") then Some {| name := Some (lit "HTML, XML") |}
  else if JS.str_eq id (lit "javascript") then Some {| name := Some (lit "JavaScript") |}
  else None.

Definition detector : HLJSApi :=
  {| highlightAuto := detect; getLanguage := languages |}.

Definition default_settings : Settings :=
  {| sync_primary := false; paste_on_copy := true; update_date_on_copy := false;
     incognito := false; wmclass_exclusions := []; max_characters := 1 |}.

(** A history store that accepts every entry. *)
Definition accept (type : ItemType.t) (text : jsstring) (m : option Metadata)
  : Completion (option ClipboardEntry) :=
  Normal (Some {| entry_type := type; entry_content := text; entry_datetime := 0 |}).

(** A world whose clipboard advertises [mimetypes], with [content] behind
    each of them and [text] as its text; every entry is accepted by the
    history store, stored images load back as a PNG signature. *)
Definition world (st : Settings) (mimetypes : list jsstring)
    (content : jsstring -> bytes) (text : option jsstring) : World :=
  {| settings := st;
     focus_window := None;
     purpose_terminal := false;
     clipboard_mimetypes := mimetypes;
     clipboard_content := content;
     clipboard_text := text;
     uri_is_valid := valid_uri;
     segment := clusters;
     Color_parse := parses_as_color;
     hljs := Some detector;
     store_image := fun checksum _ => Normal (lit "file:///images/" ++ checksum);
     load_contents := fun _ => Normal [Byte.x89; Byte.x50; Byte.x4e; Byte.x47];
     guess_mime_type := fun _ _ => Some (lit "image/png");
     tracker_insert := accept;
     now := 0 |}.

(** A world offering [text] as plain text on the clipboard. *)
Definition text_world (st : Settings) (text : jsstring) : World :=
  world st [lit "text/plain"] (fun _ => []) (Some text).

Definition with_max_characters (n : Z) : Settings :=
  {| sync_primary := false; paste_on_copy := true; update_date_on_copy := false;
     incognito := false; wmclass_exclusions := []; max_characters := n |}.

Definition with_incognito (b : bool) : Settings :=
  {| sync_primary := false; paste_on_copy := true; update_date_on_copy := false;
     incognito := b; wmclass_exclusions := []; max_characters := 1 |}.

Definition with_paste_on_copy (b : bool) : Settings :=
  {| sync_primary := false; paste_on_copy := b; update_date_on_copy := false;
     incognito := false; wmclass_exclusions := []; max_characters := 1 |}.

(** U+1F468 U+200D U+1F469 U+200D U+1F467, the family emoji: five code
    points, eight code units, one grapheme cluster. *)
Definition family : jsstring :=
  [55357; 56424; 8205; 55357; 56425; 8205; 55357; 56423]%N.

Definition start : State := initial 1 1.

(** A desktop with the default settings (one character at most for the
    Character stage) and one that allows ten. *)
Definition desktop : World := text_world default_settings [].
Definition roomy : World := text_world (with_max_characters 10) [].

Definition script : jsstring := lit "if(a){b();c();}".
Definition markup : jsstring := lit "<a><b></b></a>".
Definition short_link : jsstring := lit "http://a.b".
Definition link_with_semicolons : jsstring := lit "http://a.b/x;y;z;".

(** A password manager offering a secret, also as text and as an image. *)
Definition secret_offer : World :=
  world default_settings
    [lit "text/plain"; lit "image/png"; lit "x-kde-passwordManagerHint"]
    (fun _ => [Byte.x89]) (Some (lit "hunter2")).

(** An image editor offering JPEG and WebP next to a textual fallback. *)
Definition picture_offer : World :=
  world default_settings
    [lit "text/plain"; lit "image/jpeg"; lit "image/webp"]
    (fun _ => [Byte.x52; Byte.x49; Byte.x46; Byte.x46]) (Some (lit "picture")).

(** An application offering a format the manager does not know. *)
Definition unknown_offer : World :=
  world default_settings [lit "application/x-color"] (fun _ => [Byte.x00]) None.

(** A file manager offering one copied file, and the same selection
    coming back as plain text once the file manager is gone. *)
Definition file_offer : World :=
  world default_settings [lit "x-special-gnome-copied-files"]
    (fun _ => omap Byte.of_N (lit "copy" ++ 10%N :: lit "file:///a/b"))
    None.
Definition file_as_text_offer : World :=
  text_world default_settings (lit "/a/b").

(** The same text offered in incognito mode and outside of it. *)
Definition incognito_offer : World :=
  text_world (with_incognito true) (lit "secret plans").
Definition public_offer : World :=
  text_world (with_incognito false) (lit "secret plans").

(** The manager after a first capture of a text and of a file. *)
Definition hello_offer : World := text_world default_settings (lit "hello").
Definition after_hello : State :=
  final (ownerChanged platform hello_offer SELECTION_CLIPBOARD start).
Definition after_file : State :=
  final (ownerChanged platform file_offer SELECTION_CLIPBOARD start).

(** A desktop on which pasting after copying is switched off. *)
Definition no_paste : World := text_world (with_paste_on_copy false) [].

(** Two samples of fifty code units, of relevance 2 and 3. *)
Definition sample_2 : jsstring := repeat 97%N 48 ++ lit ";;".
Definition sample_3 : jsstring := repeat 97%N 47 ++ lit ";;;".

End Fixture.

(** ** Proof automation *)

(** Monadic steps, unfolded. *)
Ltac step :=
  unfold mbind, M_bind, mret, M_ret, tell, modify, get, lift, throw,
    set_prevClipboard, set_pasteSignalId, set_signalId; simpl.

(** Closed decidable facts are settled by evaluation. *)
Ltac by_evaluation := apply (bool_decide_unpack _); vm_compute; exact I.

(** * Properties *)

(** ** Strings and lists *)

Lemma strip_scheme_file (p : jsstring) : strip_scheme (lit "file://" ++ p) = p.
Proof. reflexivity. Qed.

Lemma map_throwing_compose {A B C} (f : A -> Completion B) (g : B -> C) (l : list A) :
  map_throwing (fun x => match f x with
                         | Normal y => Normal (g y)
                         | Thrown => Thrown
                         end) l
  = match map_throwing f l with
    | Normal ys => Normal (map g ys)
    | Thrown => Thrown
    end.
Proof.
  induction l as [|x l IH]; simpl; [reflexivity|].
  destruct (f x) as [y|]; [|reflexivity].
  rewrite IH. destruct (map_throwing f l); reflexivity.
Qed.

Lemma advance_drop (n : nat) (it : list jsstring) : advance n it = drop n it.
Proof.
  revert it. induction n as [|n IH]; intros it; simpl.
  - by rewrite drop_0.
  - rewrite IH. destruct it; simpl; [by rewrite drop_nil|done].
Qed.

(** The iterator loop of the Character stage finds the iterator exhausted
    exactly when the text has no more clusters than the maximum allows. *)
Lemma character_loop_spec (W : World) (trimmed : jsstring) :
  no_value (fst (iterator_next
                   (advance (Z.to_nat (max_characters (settings W)))
                            (segment W trimmed))))
  = character_stage W trimmed.
Proof.
  unfold character_stage, cluster_count. rewrite advance_drop.
  set (n := Z.to_nat (max_characters (settings W))).
  set (l := segment W trimmed).
  replace (Z.max 0 (max_characters (settings W))) with (Z.of_nat n) by lia.
  destruct (drop n l) as [|x r] eqn:Hd; simpl; symmetry.
  - apply Z.leb_le. apply drop_nil_inv in Hd. lia.
  - apply Z.leb_gt.
    assert (Hlen : length (drop n l) = S (length r)) by (by rewrite Hd).
    rewrite length_drop in Hlen. lia.
Qed.

(** The Link test of [convertContent] is the Link stage. *)
Lemma link_test_spec (W : World) (trimmed : jsstring) :
  JS.startsWith trimmed (lit "http")
  && match uri_is_valid W trimmed with Normal b => b | Thrown => false end
  = link_stage W trimmed.
Proof.
  unfold link_stage. destruct (uri_is_valid W trimmed) as [[]|]; reflexivity.
Qed.

(** The Code test of [convertContent], for a loaded detector. *)
Lemma code_test_spec (W : World) (h : HLJSApi) (trimmed : jsstring) :
  hljs W = Some h ->
  JS.truthy (language (highlightAuto h (JS.slice_to 10000 trimmed)))
  && Qle_bool 3 (relevance (highlightAuto h (JS.slice_to 10000 trimmed))
                 / Qmax 1 (inject_Z (JS.length (JS.slice_to 10000 trimmed)) / 100))%Q
  = code_stage W trimmed.
Proof.
  intros Hh. unfold code_stage. symmetry.
  fold (code_sample trimmed).
  fold (normalized_score (relevance (highlightAuto h (code_sample trimmed)))
                         (JS.length (code_sample trimmed))).
  destruct (JS.truthy _) eqn:Ht; simpl.
  - destruct (Qle_bool 3 _) eqn:Hq.
    + apply bool_decide_eq_true. apply Qle_bool_iff in Hq.
      destruct (language (highlightAuto h (code_sample trimmed))) as [[|c id]|] eqn:Hl;
        try discriminate.
      exists h, (c :: id). auto.
    + apply bool_decide_eq_false. intros (h' & id & H & Hl & Hne & Hs).
      assert (h' = h) as -> by congruence.
      apply Qle_bool_iff in Hs. congruence.
  - apply bool_decide_eq_false. intros (h' & id & H & Hl & Hne & Hs).
    assert (h' = h) as -> by congruence.
    rewrite Hl in Ht. destruct id; [done|discriminate].
Qed.

Lemma code_stage_unloaded (W : World) (trimmed : jsstring) :
  hljs W = None -> code_stage W trimmed = false.
Proof.
  intros Hh. apply bool_decide_eq_false. intros (h & id & H & _). congruence.
Qed.

(** [convertContent] on text, stage by stage. *)
Lemma convertContent_text (W : World) (text : jsstring) :
  let trimmed := JS.trim text in
  ∃ metadata,
    convertContent W (TextContent text)
    = Some (first_match (text_stages W) ItemType.Text trimmed, text, metadata).
Proof.
  intros trimmed. unfold convertContent. fold trimmed.
  rewrite link_test_spec, character_loop_spec. fold (color_stage W trimmed).
  unfold text_stages, first_match.
  destruct (link_stage W trimmed); [eauto|].
  destruct (character_stage W trimmed); [eauto|].
  destruct (color_stage W trimmed); [eauto|].
  destruct (hljs W) as [h|] eqn:Hh.
  - rewrite (code_test_spec W h trimmed Hh).
    destruct (code_stage W trimmed); eauto.
  - rewrite (code_stage_unloaded W trimmed Hh). eauto.
Qed.

(** ** Fingerprint *)

(** C7: the fingerprint of a FileList payload does not depend on its
    operation tag, so a Cut and a Copy of the same files collide; it is the
    digest of the newline-joined list of the percent-decoded paths, each
    stripped of its first seven code units, which for a "file://" URI are
    the scheme. *)
Theorem file_fingerprint_ignores_operation
    (P : Platform) (paths : list jsstring) (op1 op2 : FileOperation.t) :
  contentChecksum P (FileContent paths op1) = contentChecksum P (FileContent paths op2)
  ∧ contentChecksum P (FileContent paths op1)
    = match map_throwing (decodeURI P) paths with
      | Normal decoded =>
          Normal (compute_checksum_for_string P (digest_input decoded)
                    (JS.length (digest_input decoded)))
      | Thrown => Thrown
      end
  ∧ ∀ p, strip_scheme (lit "file://" ++ p) = p.
Proof.
  split; [reflexivity|]. split; [|apply strip_scheme_file].
  unfold contentChecksum, digest_input.
  rewrite (map_throwing_compose (decodeURI P) (JS.slice_from 7)).
  destruct (map_throwing (decodeURI P) paths); reflexivity.
Qed.

(** ** Classification *)

(** C4: a Text payload runs through the stages Link, Character, Color, Code
    in this order and takes the type of the first stage that matches, Text
    when none does; an Image payload goes to the image store and a FileList
    payload to File or Files, neither passing through the text stages. *)
Theorem classification_order (W : World) :
  (∀ text, ∃ metadata,
      convertContent W (TextContent text)
      = Some (first_match
                [ (ItemType.Link, link_stage W);
                  (ItemType.Character, character_stage W);
                  (ItemType.Color, color_stage W);
                  (ItemType.Code, code_stage W) ]
                ItemType.Text (JS.trim text),
              text, metadata))
  ∧ (∀ mimetype data checksum,
        convertContent W (ImageContent mimetype data checksum)
        = match store_image W checksum data with
          | Normal uri => Some (ItemType.Image, uri, None)
          | Thrown => None
          end)
  ∧ (∀ paths operation,
        convertContent W (FileContent paths operation)
        = Some (if bool_decide (length paths = 1%nat)
                then ItemType.File else ItemType.Files,
                JS.join_nl paths, Some (OperationMeta operation))).
Proof.
  split; [|split].
  - intros text. apply convertContent_text.
  - reflexivity.
  - intros paths operation. destruct paths as [|p [|q r]]; reflexivity.
Qed.

(** C5, amended: a text whose trimmed content is not a link and has no more
    grapheme clusters than the configured maximum is classified Character,
    hence not Text, Link, Color or Code; the count is the number of segments
    the segmenter reports, whatever their length in code units. *)
Theorem short_text_is_character (W : World) (text : jsstring) :
  link_stage W (JS.trim text) = false ->
  cluster_count W (JS.trim text) <= max_characters (settings W) ->
  convertContent W (TextContent text) = Some (ItemType.Character, text, None).
Proof.
  intros Hlink Hcount. unfold convertContent.
  rewrite link_test_spec, Hlink, character_loop_spec.
  unfold character_stage.
  replace (_ <=? _) with true by (symmetry; apply Z.leb_le; lia).
  reflexivity.
Qed.

Lemma short_text_is_character_witness :
  JS.length Fixture.family = 8
  ∧ cluster_count Fixture.desktop (JS.trim Fixture.family) = 1
  ∧ convertContent Fixture.desktop (TextContent Fixture.family)
    = Some (ItemType.Character, Fixture.family, None).
Proof.
  split; [reflexivity|]. split; [reflexivity|].
  apply (short_text_is_character Fixture.desktop Fixture.family).
  - reflexivity.
  - vm_compute. discriminate.
Defined.

(** C5 as stated fails: a link within the character threshold is a Link. *)
Lemma short_link_is_not_character :
  cluster_count Fixture.roomy (JS.trim Fixture.short_link)
    <= max_characters (settings Fixture.roomy)
  ∧ convertContent Fixture.roomy (TextContent Fixture.short_link)
    = Some (ItemType.Link, Fixture.short_link, None)
  ∧ convertContent Fixture.roomy (TextContent Fixture.short_link)
    ≠ Some (ItemType.Character, Fixture.short_link, None).
Proof.
  split; [vm_compute; discriminate|].
  split; [reflexivity|]. vm_compute. discriminate.
Qed.

(** When the three earlier stages pass a text on, its result is Code with
    language metadata if the Code stage matches and plain Text if not. *)
Lemma convertContent_after_color (W : World) (text : jsstring) :
  link_stage W (JS.trim text) = false ->
  character_stage W (JS.trim text) = false ->
  color_stage W (JS.trim text) = false ->
  convertContent W (TextContent text)
  = if code_stage W (JS.trim text)
    then
      match hljs W with
      | Some h =>
          let id := default [] (language (highlightAuto h (code_sample (JS.trim text)))) in
          let name := detector_name h id in
          Some (ItemType.Code, text,
                Some (LanguageMeta id
                        (if JS.length id <? JS.length name - 3
                         then JS.charAt0 id ++ JS.slice_from 1 id
                         else name)))
      | None => Some (ItemType.Text, text, None)
      end
    else Some (ItemType.Text, text, None).
Proof.
  intros Hlink Hchar Hcolor. unfold convertContent.
  rewrite link_test_spec, Hlink, character_loop_spec, Hchar.
  fold (color_stage W (JS.trim text)). rewrite Hcolor.
  destruct (hljs W) as [h|] eqn:Hh.
  - rewrite (code_test_spec W h _ Hh). reflexivity.
  - rewrite (code_stage_unloaded W _ Hh). reflexivity.
Qed.

Lemma Qmax_1_small (len : Z) :
  len <= 100 -> (Qmax 1 (inject_Z len / 100) == 1)%Q.
Proof.
  intros Hlen. apply Q.max_l.
  unfold Qle, Qdiv, Qmult, Qinv, inject_Z; simpl. lia.
Qed.

Lemma normalized_score_small (relevance : Q) (len : Z) :
  len <= 100 -> (normalized_score relevance len == relevance)%Q.
Proof.
  intros Hlen. unfold normalized_score.
  rewrite (Qmax_1_small len Hlen). field.
Qed.

(** With a whole-number relevance the threshold is a comparison of
    integers: three times max(100, sampleLength) against a hundred times the
    relevance. *)
Lemma score_threshold_integers (relevance len : Z) :
  0 <= len ->
  (3 <= normalized_score (inject_Z relevance) len)%Q
  ↔ 3 * Z.max 100 len <= 100 * relevance.
Proof.
  intros Hlen. destruct (Z_le_gt_dec len 100) as [Hsmall|Hlarge].
  - rewrite (normalized_score_small _ len Hsmall).
    unfold Qle, inject_Z; simpl. lia.
  - unfold normalized_score.
    assert (Hmax : (Qmax 1 (inject_Z len / 100) == inject_Z len / 100)%Q).
    { apply Q.max_r. unfold Qle, Qdiv, Qmult, Qinv, inject_Z; simpl. lia. }
    rewrite Hmax.
    destruct len as [|l|l]; try lia.
    unfold Qle, Qdiv, Qmult, Qinv, inject_Z; simpl. lia.
Qed.

(** C6, amended: a text that is neither a link, nor within the character
    threshold, nor a colour is classified Code exactly when the detector is
    loaded, names a language for the first 10,000 code units of the trimmed
    text, and the raw relevance divided by max(1, sampleLength / 100) is at
    least 3, and Text otherwise; a 50-unit sample of relevance 2 has
    normalized score 2 and is classified Text. *)
Theorem code_threshold (W : World) (text : jsstring) :
  link_stage W (JS.trim text) = false ->
  character_stage W (JS.trim text) = false ->
  color_stage W (JS.trim text) = false ->
  (result_type (convertContent W (TextContent text)) = Some ItemType.Code
   ↔ code_detected W (JS.trim text))
  ∧ (result_type (convertContent W (TextContent text)) = Some ItemType.Text
     ↔ ¬ code_detected W (JS.trim text))
  ∧ (JS.length (code_sample (JS.trim text)) = 50 ->
     (∀ h, hljs W = Some h ->
           (relevance (highlightAuto h (code_sample (JS.trim text))) == 2)%Q) ->
     (normalized_score 2 50 == 2)%Q
     ∧ convertContent W (TextContent text) = Some (ItemType.Text, text, None)).
Proof.
  intros Hlink Hchar Hcolor.
  rewrite (convertContent_after_color W text Hlink Hchar Hcolor).
  unfold code_stage.
  destruct (decide (code_detected W (JS.trim text))) as [Hc|Hc].
  - rewrite (bool_decide_eq_true_2 _ Hc).
    pose proof Hc as (h & id & Hh & _). rewrite Hh. simpl.
    split; [tauto|]. split; [split; [discriminate|tauto]|].
    intros Hlen Hrel. exfalso.
    destruct Hc as (h' & id' & Hh' & _ & _ & Hs).
    assert (h' = h) as -> by congruence.
    rewrite Hlen, normalized_score_small in Hs by lia.
    rewrite (Hrel h eq_refl) in Hs.
    revert Hs. apply Qlt_not_le. reflexivity.
  - rewrite (bool_decide_eq_false_2 _ Hc). simpl.
    split; [split; [discriminate|tauto]|]. split; [tauto|].
    intros _ _. split; [|reflexivity].
    apply normalized_score_small. lia.
Qed.

Lemma code_threshold_witness :
  (result_type (convertContent Fixture.desktop (TextContent Fixture.sample_2))
   = Some ItemType.Code
   ↔ code_detected Fixture.desktop (JS.trim Fixture.sample_2))
  ∧ (result_type (convertContent Fixture.desktop (TextContent Fixture.sample_2))
     = Some ItemType.Text
     ↔ ¬ code_detected Fixture.desktop (JS.trim Fixture.sample_2))
  ∧ (normalized_score 2 50 == 2)%Q
  ∧ convertContent Fixture.desktop (TextContent Fixture.sample_2)
    = Some (ItemType.Text, Fixture.sample_2, None).
Proof.
  destruct (code_threshold Fixture.desktop Fixture.sample_2)
    as (Hcode & Htext & Hfifty); try reflexivity.
  split; [exact Hcode|]. split; [exact Htext|].
  apply Hfifty; [reflexivity|].
  intros h Hh. injection Hh as <-. reflexivity.
Defined.

(** On both sides of the threshold: fifty code units of relevance 2 are
    Text, fifty of relevance 3 are Code. *)
Example threshold_straddled :
  JS.length (code_sample (JS.trim Fixture.sample_2)) = 50
  ∧ JS.length (code_sample (JS.trim Fixture.sample_3)) = 50
  ∧ result_type (convertContent Fixture.desktop (TextContent Fixture.sample_2))
    = Some ItemType.Text
  ∧ result_type (convertContent Fixture.desktop (TextContent Fixture.sample_3))
    = Some ItemType.Code.
Proof. repeat split; reflexivity. Qed.

(** C6 as stated fails: the detector names a language for a link with a
    normalized score of 3, and the link is classified Link, not Code. *)
Lemma detected_link_is_not_code :
  code_detected Fixture.desktop (JS.trim Fixture.link_with_semicolons)
  ∧ result_type (convertContent Fixture.desktop
                   (TextContent Fixture.link_with_semicolons))
    = Some ItemType.Link
  ∧ result_type (convertContent Fixture.desktop
                   (TextContent Fixture.link_with_semicolons))
    ≠ Some ItemType.Code.
Proof.
  split; [|split; [reflexivity|vm_compute; discriminate]].
  apply (bool_decide_eq_true_1 _). vm_compute. reflexivity.
Qed.

(** C2, amended: in the metadata of a Code entry the display name is the
    detector's own name for the language unless the id is more than three
    code units shorter than that name (id.length < name.length - 3), in
    which case it is taken from the id, equal to it up to the case of the
    first letter. *)
Theorem code_display_name (W : World) (text id shown : jsstring) :
  convertContent W (TextContent text)
  = Some (ItemType.Code, text, Some (LanguageMeta id shown)) ->
  ∃ h,
    hljs W = Some h
    ∧ language (highlightAuto h (code_sample (JS.trim text))) = Some id
    ∧ (JS.length (detector_name h id) - 3 <= JS.length id ->
       shown = detector_name h id)
    ∧ (JS.length id < JS.length (detector_name h id) - 3 ->
       capitalize shown = capitalize id).
Proof.
  unfold convertContent. fold (code_sample (JS.trim text)).
  destruct (_ && _); [discriminate|].
  destruct (no_value _); [discriminate|].
  destruct (Color_parse _ _); [discriminate|].
  destruct (hljs W) as [h|]; [|discriminate].
  destruct (language (highlightAuto h (code_sample (JS.trim text))))
    as [[|c lang]|] eqn:Hl; simpl; try discriminate.
  destruct (Qle_bool _ _); [|discriminate].
  fold (detector_name h (c :: lang)).
  intros H. injection H as <- <-.
  exists h. split; [reflexivity|]. split; [exact Hl|].
  split; intros Hlen.
  - replace (_ <? _) with false by (symmetry; apply Z.ltb_ge; exact Hlen).
    reflexivity.
  - replace (_ <? _) with true by (symmetry; apply Z.ltb_lt; exact Hlen).
    reflexivity.
Qed.

Lemma code_display_name_witness :
  ∃ h,
    hljs Fixture.desktop = Some h
    ∧ language (highlightAuto h (code_sample (JS.trim Fixture.markup)))
      = Some (lit "xml")
    ∧ (JS.length (detector_name h (lit "xml")) - 3 <= JS.length (lit "xml") ->
       lit "xml" = detector_name h (lit "xml"))
    ∧ (JS.length (lit "xml") < JS.length (detector_name h (lit "xml")) - 3 ->
       capitalize (lit "xml") = capitalize (lit "xml")).
Proof.
  apply (code_display_name Fixture.desktop Fixture.markup (lit "xml") (lit "xml")).
  reflexivity.
Defined.

(** C2 as stated fails in both directions.  For the id "javascript" the
    capitalized id is no shorter than the detector's name "JavaScript" minus
    3, yet the display name is the detector's name; for the id "xml" the
    capitalized id is shorter than the detector's name "HTML, XML" minus 3,
    yet the display name is not the detector's name. *)
Lemma display_name_follows_other_rule :
  (detector_name Fixture.detector (lit "javascript") = lit "JavaScript"
   ∧ JS.length (lit "JavaScript") - 3 <= JS.length (capitalize (lit "javascript"))
   ∧ display_name (convertContent Fixture.desktop (TextContent Fixture.script))
     = Some (lit "JavaScript")
   ∧ lit "JavaScript" ≠ capitalize (lit "javascript"))
  ∧ (detector_name Fixture.detector (lit "xml") = lit "HTML, XML"
     ∧ JS.length (capitalize (lit "xml")) < JS.length (lit "HTML, XML") - 3
     ∧ display_name (convertContent Fixture.desktop (TextContent Fixture.markup))
       = Some (lit "xml")
     ∧ lit "xml" ≠ lit "HTML, XML").
Proof.
  split.
  - split; [reflexivity|]. split; [vm_compute; discriminate|].
    split; [reflexivity|discriminate].
  - split; [reflexivity|]. split; [reflexivity|].
    split; [reflexivity|discriminate].
Qed.

(** ** Content acquisition *)

Lemma includes_true (a : list jsstring) (x : jsstring) :
  JS.includes a x = true ↔ x ∈ a.
Proof. unfold JS.includes. apply bool_decide_eq_true. Qed.

Lemma includes_false (a : list jsstring) (x : jsstring) :
  JS.includes a x = false ↔ x ∉ a.
Proof. unfold JS.includes. apply bool_decide_eq_false. Qed.

(** [find] returns the first preferred type that is advertised. *)
Lemma find_first_advertised (prefs adv before after : list jsstring) (mime : jsstring) :
  prefs = before ++ mime :: after ->
  mime ∈ adv ->
  (∀ x, x ∈ before -> x ∉ adv) ->
  JS.find (fun value => JS.includes adv value) prefs = Some mime.
Proof.
  intros -> Hin Hbefore. unfold JS.find.
  induction before as [|b before IH]; simpl.
  - by rewrite (proj2 (includes_true adv mime) Hin).
  - rewrite (proj2 (includes_false adv b)) by (apply Hbefore; left).
    apply IH. intros x Hx. apply Hbefore. by right.
Qed.

Lemma find_none_advertised (prefs adv : list jsstring) :
  (∀ x, x ∈ prefs -> x ∉ adv) ->
  JS.find (fun value => JS.includes adv value) prefs = None.
Proof.
  intros Hnone. unfold JS.find.
  induction prefs as [|p prefs IH]; simpl; [reflexivity|].
  rewrite (proj2 (includes_false adv p)) by (apply Hnone; left).
  apply IH. intros x Hx. apply Hnone. by right.
Qed.

Lemma some_advertised (prefs adv : list jsstring) :
  JS.some (fun value => JS.includes adv value) prefs = true
  ↔ ∃ x, x ∈ prefs ∧ x ∈ adv.
Proof.
  unfold JS.some. rewrite existsb_exists. split.
  - intros (x & Hx & Hi). exists x. split.
    + by apply list_elem_of_In.
    + by apply includes_true.
  - intros (x & Hx & Hi). exists x. split.
    + by apply list_elem_of_In.
    + by apply includes_true.
Qed.

Lemma some_not_advertised (prefs adv : list jsstring) :
  (∀ x, x ∈ prefs -> x ∉ adv) ->
  JS.some (fun value => JS.includes adv value) prefs = false.
Proof.
  intros Hnone. apply not_true_is_false. rewrite some_advertised.
  intros (x & Hx & Hi). by apply (Hnone x).
Qed.

(** Acquisition reads the clipboard and leaves the manager as it is. *)
Lemma getContent_run (P : Platform) (W : World) :
  ∃ requests content,
    (∀ s, getContent P W s = mkRun s requests (Normal content))
    ∧ forallb is_request requests = true.
Proof.
  unfold getContent.
  destruct (JS.some _ MimeTypes.Sensitive); [by exists [], None|].
  destruct (JS.find _ MimeTypes.Image) as [[|c m]|].
  2:{ destruct (0 <? _); [|by eexists _, _; split; [intros s; step; reflexivity|]].
      destruct (compute_checksum_for_bytes P _) as [[|d cs]|];
        by eexists _, _; split; [intros s; step; reflexivity|]. }
  all: destruct (JS.find _ MimeTypes.File) as [[|c' m']|].
  all: try (destruct (JS.trim (utf8_decode P _)) as [|t text];
            [by eexists _, _; split; [intros s; step; reflexivity|]|];
            destruct (List.filter _ _) as [|f0 rest];
            [by eexists _, _; split; [intros s; step; reflexivity|]|];
            destruct (JS.str_eq f0 _);
            [by eexists _, _; split; [intros s; step; reflexivity|]|];
            destruct (JS.str_eq f0 _);
            by eexists _, _; split; [intros s; step; reflexivity|]).
  all: destruct (JS.find _ MimeTypes.Text) as [[|c'' m'']|];
    try by exists [], None.
  all: destruct (clipboard_text W) as [[|t text]|];
    try (by eexists _, _; split; [intros s; step; reflexivity|]).
  all: destruct (JS.trim (t :: text));
    by eexists _, _; split; [intros s; step; reflexivity|].
Qed.

Lemma mime_nonempty (prefs before after : list jsstring) (mime : jsstring) :
  prefs = before ++ mime :: after ->
  forallb (fun m => JS.truthy (Some m)) prefs = true ->
  ∃ c m, mime = c :: m.
Proof.
  intros -> Hall. rewrite forallb_app in Hall. simpl in Hall.
  destruct mime as [|c m]; [|eauto].
  simpl in Hall. by rewrite andb_false_r in Hall.
Qed.

(** C8: acquisition looks at the advertised MIME types in the order
    sensitive, image, file list, text, and the first kind that is advertised
    decides.  A sensitive type makes the result null without any content
    being requested, and the capture ends there.  Otherwise, for an
    advertised image type, the bytes of the first advertised type in the
    order png, jxl, webp, avif, jpeg are requested and nothing else; an
    empty payload gives null.  File lists come before text, and with no
    recognized type the result is null. *)
Theorem acquisition_priority (P : Platform) (W : World) (s : State) :
  MimeTypes.Image
  = [lit "image/png"; lit "image/jxl"; lit "image/webp"; lit "image/avif";
     lit "image/jpeg"]
  ∧ ((∃ m, m ∈ MimeTypes.Sensitive ∧ m ∈ clipboard_mimetypes W) ->
     getContent P W s = mkRun s [] (Normal None)
     ∧ ∀ t, ownerChanged P W t s = mkRun s [] (Normal tt))
  ∧ ((∀ m, m ∈ MimeTypes.Sensitive -> m ∉ clipboard_mimetypes W) ->
     ∀ before mime after,
       MimeTypes.Image = before ++ mime :: after ->
       mime ∈ clipboard_mimetypes W ->
       (∀ x, x ∈ before -> x ∉ clipboard_mimetypes W) ->
       final (getContent P W s) = s
       ∧ trace (getContent P W s) = [GetContent mime]
       ∧ (clipboard_content W mime = [] ->
          result (getContent P W s) = Normal None)
       ∧ (clipboard_content W mime ≠ [] ->
          result (getContent P W s)
          = Normal match compute_checksum_for_bytes P (clipboard_content W mime) with
                   | Some ((_ :: _) as checksum) =>
                       Some (ImageContent mime (clipboard_content W mime) checksum)
                   | _ => None
                   end))
  ∧ ((∀ m, m ∈ MimeTypes.Sensitive ++ MimeTypes.Image ->
           m ∉ clipboard_mimetypes W) ->
     ∀ before mime after,
       MimeTypes.File = before ++ mime :: after ->
       mime ∈ clipboard_mimetypes W ->
       (∀ x, x ∈ before -> x ∉ clipboard_mimetypes W) ->
       trace (getContent P W s) = [GetContent mime])
  ∧ ((∀ m, m ∈ MimeTypes.Sensitive ++ MimeTypes.Image ++ MimeTypes.File ->
           m ∉ clipboard_mimetypes W) ->
     (∃ m, m ∈ MimeTypes.Text ∧ m ∈ clipboard_mimetypes W) ->
     trace (getContent P W s) = [GetText])
  ∧ ((∀ m, m ∈ MimeTypes.Sensitive ++ MimeTypes.Image ++ MimeTypes.File
                 ++ MimeTypes.Text ->
           m ∉ clipboard_mimetypes W) ->
     getContent P W s = mkRun s [] (Normal None)).
Proof.
  split; [reflexivity|]. split; [|split; [|split; [|split]]].
  - intros Hsens. apply some_advertised in Hsens.
    assert (Hget : ∀ s', getContent P W s' = mkRun s' [] (Normal None)).
    { intros s'. unfold getContent. by rewrite Hsens. }
    split; [apply Hget|]. intros t.
    unfold ownerChanged, try_catch. step.
    destruct (bool_decide (t = SELECTION_CLIPBOARD)); simpl; [|reflexivity].
    by rewrite Hget.
  - intros Hsens before mime after Hsplit Hin Hbefore.
    unfold getContent.
    rewrite (some_not_advertised _ _ Hsens).
    rewrite (find_first_advertised _ _ _ _ _ Hsplit Hin Hbefore).
    destruct (mime_nonempty _ _ _ _ Hsplit eq_refl) as (c & m & ->).
    destruct (clipboard_content W (c :: m)) as [|b bs] eqn:Hbytes.
    + step. split; [done|]. split; [done|]. split; done.
    + replace (0 <? Z.of_nat (length (b :: bs))) with true
        by (symmetry; apply Z.ltb_lt; simpl; lia).
      destruct (compute_checksum_for_bytes P (b :: bs)) as [[|d cs]|];
        step; (split; [done|]); (split; [done|]); split; done.
  - intros Hnone before mime after Hsplit Hin Hbefore.
    unfold getContent.
    rewrite some_not_advertised
      by (intros m Hm; apply Hnone, elem_of_app; by left).
    rewrite find_none_advertised
      by (intros m Hm; apply Hnone, elem_of_app; by right).
    rewrite (find_first_advertised _ _ _ _ _ Hsplit Hin Hbefore).
    destruct (mime_nonempty _ _ _ _ Hsplit eq_refl) as (c & m & ->).
    destruct (JS.trim _) as [|t text]; [by step|].
    destruct (List.filter _ _) as [|f0 rest]; [by step|].
    destruct (JS.str_eq f0 _); [by step|].
    destruct (JS.str_eq f0 _); by step.
  - intros Hnone (m & Hm & Hin).
    unfold getContent.
    rewrite some_not_advertised
      by (intros x Hx; apply Hnone, elem_of_app; by left).
    rewrite find_none_advertised
      by (intros x Hx; apply Hnone; rewrite !elem_of_app; by right; left).
    rewrite find_none_advertised
      by (intros x Hx; apply Hnone; rewrite !elem_of_app; by right; right).
    assert (Hfound : ∃ c t, JS.find (fun value => JS.includes (clipboard_mimetypes W) value)
                                    MimeTypes.Text = Some (c :: t)).
    { unfold JS.find.
      destruct (List.find _ MimeTypes.Text) as [x|] eqn:Hf.
      - apply find_some in Hf as [Hx _].
        simpl in Hx. destruct Hx as [<-|[<-|[<-|[<-|[]]]]]; eauto.
      - exfalso. apply list_elem_of_In in Hm.
        pose proof (find_none _ _ Hf m Hm) as Hfalse. simpl in Hfalse.
        apply includes_false in Hfalse. contradiction. }
    destruct Hfound as (c & t & ->).
    destruct (clipboard_text W) as [[|u text]|]; try by step.
    destruct (JS.trim (u :: text)); by step.
  - intros Hnone. unfold getContent.
    rewrite some_not_advertised
      by (intros x Hx; apply Hnone; rewrite !elem_of_app; by left).
    rewrite find_none_advertised
      by (intros x Hx; apply Hnone; rewrite !elem_of_app; by right; left).
    rewrite find_none_advertised
      by (intros x Hx; apply Hnone; rewrite !elem_of_app; by right; right; left).
    rewrite find_none_advertised
      by (intros x Hx; apply Hnone; rewrite !elem_of_app; by right; right; right).
    reflexivity.
Qed.

Lemma acquisition_priority_witness :
  getContent Fixture.platform Fixture.secret_offer Fixture.start
  = mkRun Fixture.start [] (Normal None)
  ∧ trace (getContent Fixture.platform Fixture.picture_offer Fixture.start)
    = [GetContent (lit "image/webp")]
  ∧ getContent Fixture.platform Fixture.unknown_offer Fixture.start
    = mkRun Fixture.start [] (Normal None).
Proof.
  split; [|split].
  - destruct (acquisition_priority Fixture.platform Fixture.secret_offer Fixture.start)
      as (_ & Hsensitive & _).
    apply Hsensitive. exists (lit "x-kde-passwordManagerHint").
    split; by_evaluation.
  - destruct (acquisition_priority Fixture.platform Fixture.picture_offer Fixture.start)
      as (_ & _ & Himage & _).
    apply (Himage ltac:(apply Forall_forall; by_evaluation)
                  [lit "image/png"; lit "image/jxl"] (lit "image/webp")
                  [lit "image/avif"; lit "image/jpeg"]).
    + reflexivity.
    + by_evaluation.
    + apply Forall_forall. by_evaluation.
  - destruct (acquisition_priority Fixture.platform Fixture.unknown_offer Fixture.start)
      as (_ & _ & _ & _ & _ & Hnone).
    apply Hnone. apply Forall_forall. by_evaluation.
Defined.

(** ** Deduplication *)

Lemma requests_no_insert (t : list Effect) :
  forallb is_request t = true -> List.filter is_insert t = [].
Proof.
  induction t as [|e t IH]; simpl; [done|].
  intros [He Ht]%andb_prop. destruct e; try discriminate; simpl; auto.
Qed.

Lemma requests_no_emit (t : list Effect) :
  forallb is_request t = true -> List.filter is_emit t = [].
Proof.
  induction t as [|e t IH]; simpl; [done|].
  intros [He Ht]%andb_prop. destruct e; try discriminate; simpl; auto.
Qed.

Lemma repeats_duplicate (prev : option (ContentType.t * jsstring))
    (kind : ContentType.t) (fingerprint : jsstring) :
  match prev with
  | Some (type, prevChecksum) =>
      bool_decide (type = kind) && JS.str_eq prevChecksum fingerprint
      || bool_decide (type = ContentType.File)
         && bool_decide (kind = ContentType.Text)
         && JS.str_eq prevChecksum fingerprint
  | None => false
  end = true
  ↔ repeats prev kind fingerprint.
Proof.
  unfold repeats, JS.str_eq. destruct prev as [[k f]|].
  - rewrite orb_true_iff, !andb_true_iff, !bool_decide_eq_true. split.
    + intros [[-> ->]|[[-> ->] ->]]; eauto.
    + intros (k' & [= <- <-] & [->|[-> ->]]); auto.
  - split; [discriminate|]. intros (k & H & _). discriminate.
Qed.

(** The owner-changed handler on a capture that repeats the dedup slot. *)
Lemma ownerChanged_repeat (P : Platform) (W : World) (s : State)
    (content : ClipboardContent) (fingerprint : jsstring) :
  result (getContent P W s) = Normal (Some content) ->
  contentChecksum P content = Normal (Some fingerprint) ->
  repeats (prevClipboard s) (content_type content) fingerprint ->
  suppressed (ownerChanged P W SELECTION_CLIPBOARD s) s.
Proof.
  intros Hget Hsum Hrep.
  destruct (getContent_run P W) as (requests & c & Hrun & Hreq).
  rewrite Hrun in Hget. simpl in Hget. injection Hget as ->.
  apply repeats_duplicate in Hrep.
  unfold suppressed, ownerChanged, try_catch. step.
  rewrite Hrun. simpl. rewrite Hsum. simpl.
  destruct fingerprint as [|c cs]; simpl.
  - rewrite app_nil_r. auto using requests_no_insert, requests_no_emit.
  - rewrite Hrep. simpl. rewrite !app_nil_r.
    auto using requests_no_insert, requests_no_emit.
Qed.

(** C1: an ownership-change capture whose payload has the kind and the
    fingerprint of the last-known pair is suppressed: the dedup slot and the
    rest of the state stay as they are, nothing is inserted into the history
    store and no signal is emitted; the same holds when the last-known kind
    is FileList and the payload is Text with the same fingerprint. *)
Theorem duplicate_capture_suppressed (P : Platform) (W : World) (s : State)
    (content : ClipboardContent) (fingerprint : jsstring) :
  result (getContent P W s) = Normal (Some content) ->
  contentChecksum P content = Normal (Some fingerprint) ->
  (prevClipboard s = Some (content_type content, fingerprint) ->
   suppressed (ownerChanged P W SELECTION_CLIPBOARD s) s)
  ∧ (prevClipboard s = Some (ContentType.File, fingerprint) ->
     content_type content = ContentType.Text ->
     suppressed (ownerChanged P W SELECTION_CLIPBOARD s) s).
Proof.
  intros Hget Hsum. split.
  - intros Hprev. apply (ownerChanged_repeat P W s content fingerprint Hget Hsum).
    exists (content_type content). auto.
  - intros Hprev Htext.
    apply (ownerChanged_repeat P W s content fingerprint Hget Hsum).
    exists ContentType.File. auto.
Qed.

Lemma duplicate_capture_suppressed_witness :
  suppressed (ownerChanged Fixture.platform Fixture.hello_offer
                SELECTION_CLIPBOARD Fixture.after_hello)
             Fixture.after_hello
  ∧ suppressed (ownerChanged Fixture.platform Fixture.file_as_text_offer
                  SELECTION_CLIPBOARD Fixture.after_file)
               Fixture.after_file.
Proof.
  split.
  - destruct (duplicate_capture_suppressed Fixture.platform Fixture.hello_offer
                Fixture.after_hello (TextContent (lit "hello")) (lit "md5:hello"))
      as [Hsame _]; [reflexivity|reflexivity|].
    apply Hsame. reflexivity.
  - destruct (duplicate_capture_suppressed Fixture.platform
                Fixture.file_as_text_offer Fixture.after_file
                (TextContent (lit "/a/b")) (lit "md5:/a/b"))
      as [_ Hfile]; [reflexivity|reflexivity|].
    apply Hfile; reflexivity.
Defined.

(** The save policy vetoes exactly in incognito mode or when the class of
    the focused window is excluded. *)
Lemma shouldSave_false (W : World) :
  shouldSave W = false
  ↔ incognito (settings W) = true
    ∨ ∃ wm_class, focus_window W = Some wm_class
                  ∧ wm_class ∈ wmclass_exclusions (settings W).
Proof.
  unfold shouldSave. destruct (focus_window W) as [c|].
  - destruct (JS.includes _ c) eqn:Hin.
    + apply includes_true in Hin. split; [eauto|done].
    + apply includes_false in Hin. rewrite negb_false_iff. split; [auto|].
      intros [H|(c' & [= <-] & Hc)]; [done|contradiction].
  - rewrite negb_false_iff. split; [auto|].
    intros [H|(c' & [=] & _)]. done.
Qed.

(** C10: a capture that is not suppressed writes its (kind, fingerprint)
    pair into the dedup slot whatever the save policy says; when the policy
    vetoes (incognito mode, or the focused window's class is excluded)
    nothing is inserted, and a later capture of the same content, under any
    settings, is suppressed and inserts nothing. *)
Theorem dedup_updated_before_save_policy (P : Platform) (W : World) (s : State)
    (content : ClipboardContent) (fingerprint : jsstring) :
  result (getContent P W s) = Normal (Some content) ->
  contentChecksum P content = Normal (Some fingerprint) ->
  fingerprint ≠ [] ->
  ¬ repeats (prevClipboard s) (content_type content) fingerprint ->
  prevClipboard (final (ownerChanged P W SELECTION_CLIPBOARD s))
  = Some (content_type content, fingerprint)
  ∧ (incognito (settings W) = true
     ∨ (∃ wm_class, focus_window W = Some wm_class
                    ∧ wm_class ∈ wmclass_exclusions (settings W)) ->
     List.filter is_insert (trace (ownerChanged P W SELECTION_CLIPBOARD s)) = []
     ∧ List.filter is_emit (trace (ownerChanged P W SELECTION_CLIPBOARD s)) = [])
  ∧ (∀ W',
        result (getContent P W' (final (ownerChanged P W SELECTION_CLIPBOARD s)))
        = Normal (Some content) ->
        suppressed (ownerChanged P W' SELECTION_CLIPBOARD
                      (final (ownerChanged P W SELECTION_CLIPBOARD s)))
                   (final (ownerChanged P W SELECTION_CLIPBOARD s))).
Proof.
  intros Hget Hsum Hne Hfresh.
  destruct (getContent_run P W) as (requests & c & Hrun & Hreq).
  rewrite Hrun in Hget. simpl in Hget. injection Hget as ->.
  assert (Hdup : match prevClipboard s with
                 | Some (type, prevChecksum) =>
                     bool_decide (type = content_type content)
                       && JS.str_eq prevChecksum fingerprint
                     || bool_decide (type = ContentType.File)
                        && bool_decide (content_type content = ContentType.Text)
                        && JS.str_eq prevChecksum fingerprint
                 | None => false
                 end = false).
  { apply not_true_is_false. by rewrite repeats_duplicate. }
  destruct fingerprint as [|d ds]; [done|].
  assert (Hslot : prevClipboard (final (ownerChanged P W SELECTION_CLIPBOARD s))
                  = Some (content_type content, d :: ds)).
  { unfold ownerChanged, try_catch. step.
    rewrite Hrun. simpl. rewrite Hsum. simpl. rewrite Hdup. simpl.
    destruct (shouldSave W); simpl; [|reflexivity].
    destruct (convertContent W content) as [[[type text] metadata]|]; simpl;
      [|reflexivity].
    destruct (tracker_insert W type text metadata) as [[entry|]|]; reflexivity. }
  split; [exact Hslot|]. split.
  - intros Hveto. apply shouldSave_false in Hveto.
    unfold ownerChanged, try_catch. step.
    rewrite Hrun. simpl. rewrite Hsum. simpl. rewrite Hdup. simpl.
    rewrite Hveto. simpl. rewrite !app_nil_r.
    auto using requests_no_insert, requests_no_emit.
  - intros W' Hget'.
    apply (ownerChanged_repeat P W' _ content (d :: ds) Hget' Hsum).
    exists (content_type content). auto.
Qed.

Lemma dedup_updated_before_save_policy_witness :
  prevClipboard (final (ownerChanged Fixture.platform Fixture.incognito_offer
                          SELECTION_CLIPBOARD Fixture.start))
  = Some (ContentType.Text, lit "md5:secret plans")
  ∧ List.filter is_insert
      (trace (ownerChanged Fixture.platform Fixture.incognito_offer
                SELECTION_CLIPBOARD Fixture.start)) = []
  ∧ suppressed
      (ownerChanged Fixture.platform Fixture.public_offer SELECTION_CLIPBOARD
         (final (ownerChanged Fixture.platform Fixture.incognito_offer
                   SELECTION_CLIPBOARD Fixture.start)))
      (final (ownerChanged Fixture.platform Fixture.incognito_offer
                SELECTION_CLIPBOARD Fixture.start)).
Proof.
  destruct (dedup_updated_before_save_policy Fixture.platform
              Fixture.incognito_offer Fixture.start
              (TextContent (lit "secret plans")) (lit "md5:secret plans"))
    as (Hslot & Hveto & Hagain).
  - reflexivity.
  - reflexivity.
  - discriminate.
  - intros (k & Hk & _). discriminate.
  - split; [exact Hslot|]. split.
    + apply Hveto. left. reflexivity.
    + apply Hagain. reflexivity.
Defined.

(** ** Replay *)

(** [copyContent] on an Image payload with the empty fingerprint returns
    before it touches the dedup slot or the clipboard. *)
Lemma copyContent_empty_fingerprint (P : Platform) (W : World) (s : State)
    (mimetype : jsstring) (data : bytes) :
  copyContent P W (ImageContent mimetype data []) s = mkRun s [] (Normal tt).
Proof. reflexivity. Qed.

(** C3 fails on the code: replaying an Image entry never writes to the
    system clipboard and never updates the dedup slot, whether or not the
    image loads and its MIME type is found, because [pasteEntry] passes the
    empty fingerprint and [copyContent] returns on a falsy fingerprint. *)
Theorem image_replay_not_delivered (P : Platform) (W : World) (s : State)
    (uri : jsstring) (datetime : Z) :
  List.filter is_delivery
    (trace (pasteEntry P W {| entry_type := ItemType.Image;
                              entry_content := uri;
                              entry_datetime := datetime |} s)) = []
  ∧ prevClipboard (final (pasteEntry P W {| entry_type := ItemType.Image;
                                            entry_content := uri;
                                            entry_datetime := datetime |} s))
    = prevClipboard s.
Proof.
  unfold pasteEntry, try_catch, pasteContent. simpl. step.
  destruct (update_date_on_copy (settings W)); simpl;
    (destruct (load_contents W uri) as [contents|]; simpl; [|done]);
    (destruct (guess_mime_type W uri contents) as [[|c m]|]; simpl; [done| |done]);
    (destruct (paste_on_copy (settings W)); simpl; [|done]);
    unfold source_remove, timeout_add; step;
    destruct (0 <=? pasteSignalId s); simpl; done.
Qed.

(** On a desktop where the image loads and is recognized as PNG, and where
    pasting after copying is on: the replay schedules the paste keystrokes
    without having put the image on the clipboard. *)
Example image_replay_pastes_stale_clipboard :
  load_contents Fixture.desktop (lit "file:///images/abc")
  = Normal [Byte.x89; Byte.x50; Byte.x4e; Byte.x47]
  ∧ guess_mime_type Fixture.desktop (lit "file:///images/abc")
      [Byte.x89; Byte.x50; Byte.x4e; Byte.x47] = Some (lit "image/png")
  ∧ trace (pasteEntry Fixture.platform Fixture.desktop
             {| entry_type := ItemType.Image;
                entry_content := lit "file:///images/abc";
                entry_datetime := 0 |} Fixture.start)
    = [TimeoutAdd 1].
Proof. repeat split; reflexivity. Qed.

(** The sibling path: with a computed fingerprint, as [copyPng] passes it,
    the image reaches the clipboard. *)
Lemma copyContent_image_delivers (P : Platform) (W : World) (s : State)
    (mimetype : jsstring) (data : bytes) (c : N) (checksum : jsstring) :
  trace (copyContent P W (ImageContent mimetype data (c :: checksum)) s)
  = [SetContent mimetype data].
Proof. reflexivity. Qed.

(** ** The paste timer *)

Lemma deliveries_no_keystrokes (t : list Effect) :
  forallb is_delivery t = true -> keystrokes t = [].
Proof.
  induction t as [|e t IH]; simpl; [done|].
  intros [He Ht]%andb_prop. destruct e; try discriminate; simpl; auto.
Qed.

Lemma keystrokes_app (t u : list Effect) :
  keystrokes (t ++ u) = keystrokes t ++ keystrokes u.
Proof. unfold keystrokes. apply List.filter_app. Qed.

(** Delivery leaves the paste timer alone. *)
Lemma copyContent_frame (P : Platform) (W : World) (c : ClipboardContent) (s : State) :
  pasteSignalId (final (copyContent P W c s)) = pasteSignalId s
  ∧ sources (final (copyContent P W c s)) = sources s
  ∧ next_source (final (copyContent P W c s)) = next_source s
  ∧ forallb is_delivery (trace (copyContent P W c s)) = true.
Proof.
  unfold copyContent. step.
  destruct (contentChecksum P c) as [[[|d ds]|]|]; simpl; try done.
  destruct c as [text|mimetype data checksum|paths operation]; simpl; try done.
  destruct (sync_primary (settings W)); done.
Qed.

(** What a paste request does to the timer: either nothing, when pasting
    after copying is off or delivery throws, or the pending source, if any,
    is removed and then a fresh one added, which the manager remembers. *)
Lemma pasteContent_timer (P : Platform) (W : World) (c : ClipboardContent) (s : State) :
  keystrokes (trace (pasteContent P W c s)) = []
  ∧ ((paste_on_copy (settings W) = false
      ∨ result (pasteContent P W c s) = Thrown)
     ∧ pasteSignalId (final (pasteContent P W c s)) = pasteSignalId s
     ∧ sources (final (pasteContent P W c s)) = sources s
     ∧ next_source (final (pasteContent P W c s)) = next_source s
     ∨ paste_on_copy (settings W) = true
       ∧ result (pasteContent P W c s) = Normal tt
       ∧ pasteSignalId (final (pasteContent P W c s)) = next_source s
       ∧ sources (final (pasteContent P W c s))
         = {[next_source s]}
           ∪ (if 0 <=? pasteSignalId s
              then sources s ∖ {[pasteSignalId s]} else sources s)
       ∧ next_source (final (pasteContent P W c s)) = next_source s + 1
       ∧ ∃ deliveries,
           trace (pasteContent P W c s)
           = deliveries
             ++ (if 0 <=? pasteSignalId s
                 then [SourceRemove (pasteSignalId s)] else [])
             ++ [TimeoutAdd (next_source s)]).
Proof.
  destruct (copyContent_frame P W c s) as (Hid & Hsrc & Hnext & Hdel).
  unfold pasteContent. step.
  destruct (copyContent P W c s) as [s1 t1 [[]|]]; simpl in *.
  - destruct (paste_on_copy (settings W)); simpl.
    + unfold source_remove, timeout_add. step. rewrite Hid.
      destruct (0 <=? pasteSignalId s); simpl; rewrite ?Hsrc, ?Hnext.

      * split.
        { rewrite keystrokes_app, (deliveries_no_keystrokes _ Hdel). done. }
        right. repeat (split; [done|]). by exists t1.
      * split.
        { rewrite keystrokes_app, (deliveries_no_keystrokes _ Hdel). done. }
        right. repeat (split; [done|]). by exists t1.
    + rewrite app_nil_r. split; [by apply deliveries_no_keystrokes|].
      left. auto.
  - split; [by apply deliveries_no_keystrokes|]. left. auto.
Qed.

Opaque copyContent pasteContent.

Lemma timer_inv_frame (s s' : State) :
  pasteSignalId s' = pasteSignalId s ->
  sources s' = sources s ->
  next_source s' = next_source s ->
  timer_inv s -> timer_inv s'.
Proof. unfold timer_inv. intros -> -> ->. done. Qed.

Lemma pasteContent_inv (P : Platform) (W : World) (c : ClipboardContent) (s : State) :
  timer_inv s -> timer_inv (final (pasteContent P W c s)).
Proof.
  intros Hinv.
  destruct (pasteContent_timer P W c s)
    as (_ & [(_ & Hid & Hsrc & Hnext)|(_ & _ & Hid & Hsrc & Hnext & _)]).
  - by apply (timer_inv_frame s).
  - destruct Hinv as (Hpos & [(Hnone & Hempty)|(Hrange & Hone)]);
      unfold timer_inv; rewrite Hid, Hsrc, Hnext.
    + rewrite Hnone, Hempty. simpl. split; [lia|]. right.
      split; [lia|]. apply union_empty_r_L.
    + replace (0 <=? pasteSignalId s) with true by (symmetry; apply Z.leb_le; lia).
      rewrite Hone, difference_diag_L. split; [lia|]. right.
      split; [lia|]. apply union_empty_r_L.
Qed.

Lemma copyContent_inv (P : Platform) (W : World) (c : ClipboardContent) (s : State) :
  timer_inv s -> timer_inv (final (copyContent P W c s)).
Proof.
  destruct (copyContent_frame P W c s) as (Hid & Hsrc & Hnext & _).
  by apply timer_inv_frame.
Qed.

Lemma ownerChanged_inv (P : Platform) (W : World) (t : SelectionType) (s : State) :
  timer_inv s -> timer_inv (final (ownerChanged P W t s)).
Proof.
  destruct (getContent_run P W) as (requests & c & Hrun & _).
  apply timer_inv_frame; unfold ownerChanged, try_catch; step;
    (destruct (bool_decide (t = SELECTION_CLIPBOARD)); simpl; [|done]);
    rewrite Hrun; simpl;
    (destruct c as [c|]; simpl; [|done]);
    (destruct (contentChecksum P c) as [[[|d ds]|]|]; simpl; try done);
    (destruct (match prevClipboard s with Some _ => _ | None => _ end); simpl;
     [done|]);
    (destruct (shouldSave W); simpl; [|done]);
    (destruct (convertContent W c) as [[[type text] metadata]|]; simpl; [|done]);
    destruct (tracker_insert W type text metadata) as [[entry|]|]; done.
Qed.

Lemma pasteEntry_inv (P : Platform) (W : World) (e : ClipboardEntry) (s : State) :
  timer_inv s -> timer_inv (final (pasteEntry P W e s)).
Proof.
  intros Hinv. unfold pasteEntry, try_catch. step.
  destruct (update_date_on_copy (settings W)); simpl;
    destruct (entry_type e); simpl;
    try (by apply pasteContent_inv);
    (destruct (load_contents W (entry_content e)) as [contents|]; simpl; [|done]);
    (destruct (guess_mime_type W (entry_content e) contents) as [[|c m]|];
     simpl; [done| |done]);
    pose proof (pasteContent_inv P W (ImageContent (c :: m) contents []) s Hinv);
    destruct (pasteContent P W (ImageContent (c :: m) contents []) s)
      as [s' t' [[]|]]; done.
Qed.

Lemma destroy_inv (s : State) : timer_inv s -> timer_inv (final (destroy s)).
Proof.
  intros (Hpos & Hcases). unfold destroy, source_remove. step.
  destruct (0 <=? signalId s); simpl;
    destruct (0 <=? pasteSignalId s) eqn:Hid; simpl;
    (split; [done|]); left; (split; [done|]);
    destruct Hcases as [(Hnone & Hempty)|(Hrange & Hone)];
    try (rewrite Hnone in Hid; discriminate);
    try (apply Z.leb_gt in Hid; lia);
    try exact Hempty;
    rewrite Hone; apply difference_diag_L.
Qed.

Lemma dispatch_timeout_inv (W : World) (id : Z) (s : State) :
  id ∈ sources s -> timer_inv s -> timer_inv (final (dispatch_timeout W id s)).
Proof.
  intros Hin (Hpos & [(Hnone & Hempty)|(Hrange & Hone)]).
  - rewrite Hempty in Hin. by apply not_elem_of_empty in Hin.
  - rewrite Hone in Hin. apply elem_of_singleton in Hin as ->.
    unfold dispatch_timeout, pasteCallback. step.
    destruct (purpose_terminal W); simpl; (split; [done|]); left;
      (split; [done|]); rewrite Hone; apply difference_diag_L.
Qed.

Lemma copyText_inv (P : Platform) (W : World) (text : jsstring) (s : State) :
  timer_inv s -> timer_inv (final (copyText P W text s)).
Proof.
  intros Hinv. unfold copyText. step.
  pose proof (copyContent_inv P W (TextContent text) s Hinv).
  destruct (copyContent P W (TextContent text) s) as [s' t' [[]|]]; done.
Qed.

Lemma copyPng_inv (P : Platform) (W : World) (data : bytes) (width height : Z)
    (s : State) :
  timer_inv s -> timer_inv (final (copyPng P W data width height s)).
Proof.
  intros Hinv. unfold copyPng.
  destruct (compute_checksum_for_bytes P data) as [[|c cs]|]; [done| |done].
  step.
  pose proof (copyContent_inv P W (ImageContent (lit "image/png") data (c :: cs))
                s Hinv).
  destruct (copyContent P W _ s) as [s' t' [[]|]]; done.
Qed.

Create HintDb timer discriminated.

#[local] Hint Resolve destroy_inv copyContent_inv pasteContent_inv copyText_inv
  copyPng_inv pasteEntry_inv ownerChanged_inv dispatch_timeout_inv : timer.

(** Every handler keeps the timer discipline. *)
Lemma handle_inv (P : Platform) (e : Event) (s : State) :
  enabled e s -> timer_inv s -> timer_inv (final (handle P e s)).
Proof.
  intros Hen Hinv.
  destruct e; cbn [handle enabled] in *; unfold pasteText; auto with timer.
Qed.

Lemma initial_inv (sid first_source : Z) :
  0 < first_source -> timer_inv (initial sid first_source).
Proof. intros Hpos. split; [done|]. left. done. Qed.

Lemma reachable_inv (P : Platform) (sid first_source : Z) (s : State) :
  0 < first_source ->
  reachable P (initial sid first_source) s -> timer_inv s.
Proof.
  intros Hpos Hreach. induction Hreach as [|s e Hreach IH Hen].
  - by apply initial_inv.
  - by apply handle_inv.
Qed.

Lemma timer_inv_size (s : State) : timer_inv s -> (size (sources s) ≤ 1)%nat.
Proof.
  intros (_ & [(_ & ->)|(_ & ->)]).
  - rewrite size_empty. lia.
  - rewrite size_singleton. lia.
Qed.

Transparent copyContent pasteContent.

(** Letting the delay pass with no source pending, or with one. *)
Lemma elapse_idle (W : World) (s : State) :
  sources s = ∅ -> keystrokes (trace (elapse W s)) = [].
Proof.
  intros Hempty. unfold elapse. step. rewrite Hempty, elements_empty. done.
Qed.

Lemma elapse_one (W : World) (s : State) (id : Z) :
  sources s = {[id]} ->
  keystrokes (trace (elapse W s)) = paste_sequence (purpose_terminal W).
Proof.
  intros Hone. unfold elapse. step. rewrite Hone, elements_singleton.
  unfold fire. step. rewrite Hone.
  rewrite (bool_decide_eq_true_2 _ (proj2 (elem_of_singleton id id) eq_refl)).
  unfold dispatch_timeout, pasteCallback, paste_sequence. step.
  destruct (purpose_terminal W); reflexivity.
Qed.

Lemma elapse_keystrokes (W : World) (s : State) :
  timer_inv s ->
  keystrokes (trace (elapse W s)) = []
  ∨ keystrokes (trace (elapse W s)) = paste_sequence (purpose_terminal W).
Proof.
  intros (_ & [(_ & Hempty)|(_ & Hone)]).
  - left. by apply elapse_idle.
  - right. by apply (elapse_one W s (pasteSignalId s)).
Qed.

(** C9, amended: in every state the manager can reach at most one paste
    source is pending.  A paste request that gets to schedule (pasting after
    copying is on and delivery does not throw) first removes the source
    still pending from an earlier request and then adds its own, so after
    two requests within the delay only the second one's source is pending
    and exactly one keystroke sequence follows; whatever the settings, two
    requests are followed by at most one sequence. *)
Theorem single_pending_paste (P : Platform) (sid first_source : Z) (s : State)
    (W1 W2 W3 : World) (c1 c2 : ClipboardContent) :
  0 < first_source ->
  reachable P (initial sid first_source) s ->
  let r1 := pasteContent P W1 c1 s in
  let r2 := pasteContent P W2 c2 (final r1) in
  let r3 := elapse W3 (final r2) in
  (size (sources s) ≤ 1)%nat
  ∧ (size (sources (final r1)) ≤ 1)%nat
  ∧ (size (sources (final r2)) ≤ 1)%nat
  ∧ (keystrokes (trace r1 ++ trace r2 ++ trace r3) = []
     ∨ keystrokes (trace r1 ++ trace r2 ++ trace r3)
       = paste_sequence (purpose_terminal W3))
  ∧ (paste_on_copy (settings W2) = true ->
     result r2 = Normal tt ->
     (∀ id, id ∈ sources (final r1) ->
            ∃ deliveries,
              trace r2 = deliveries
                         ++ [SourceRemove id; TimeoutAdd (next_source (final r1))])
     ∧ sources (final r2) = {[next_source (final r1)]}
     ∧ (∀ id, id ∈ sources (final r1) -> id ∉ sources (final r2))
     ∧ keystrokes (trace r1 ++ trace r2 ++ trace r3)
       = paste_sequence (purpose_terminal W3)).
Proof.
  intros Hpos Hreach r1 r2 r3.
  pose proof (reachable_inv P sid first_source s Hpos Hreach) as Hinv.
  pose proof (pasteContent_inv P W1 c1 s Hinv) as Hinv1. fold r1 in Hinv1.
  pose proof (pasteContent_inv P W2 c2 (final r1) Hinv1) as Hinv2. fold r2 in Hinv2.
  destruct (pasteContent_timer P W1 c1 s) as (Hk1 & _). fold r1 in Hk1.
  destruct (pasteContent_timer P W2 c2 (final r1)) as (Hk2 & Hcases2).
  fold r2 in Hk2, Hcases2.
  assert (Hkeys : keystrokes (trace r1 ++ trace r2 ++ trace r3)
                  = keystrokes (trace r3)).
  { by rewrite !keystrokes_app, Hk1, Hk2. }
  rewrite Hkeys.
  split; [by apply timer_inv_size|]. split; [by apply timer_inv_size|].
  split; [by apply timer_inv_size|].
  split; [by apply elapse_keystrokes|].
  intros Hflag Hres.
  destruct Hcases2 as [([Hoff|Hthrown] & _)|(_ & _ & Hid & Hsrc & Hnext & Htrace)];
    [congruence|congruence|].
  assert (Hone : sources (final r2) = {[next_source (final r1)]}).
  { destruct Hinv2 as (_ & [(Hnone & _)|(_ & Hone)]).
    - destruct Hinv1 as (Hpos1 & _). lia.
    - by rewrite Hone, Hid. }
  split; [|split; [exact Hone|split]].
  - intros id Hin. destruct Htrace as (deliveries & Htrace).
    exists deliveries. rewrite Htrace.
    destruct Hinv1 as (_ & [(_ & Hempty)|(Hrange & Hpending)]).
    + rewrite Hempty in Hin. by apply not_elem_of_empty in Hin.
    + rewrite Hpending in Hin. apply elem_of_singleton in Hin as ->.
      replace (0 <=? pasteSignalId (final r1)) with true
        by (symmetry; apply Z.leb_le; lia).
      reflexivity.
  - intros id Hin. rewrite Hone. rewrite elem_of_singleton. intros ->.
    destruct Hinv1 as (_ & [(_ & Hempty)|(Hrange & Hpending)]).
    + rewrite Hempty in Hin. by apply not_elem_of_empty in Hin.
    + rewrite Hpending in Hin. apply elem_of_singleton in Hin. lia.
  - by apply (elapse_one W3 (final r2) (next_source (final r1))).
Qed.

Lemma single_pending_paste_witness :
  sources (final (pasteContent Fixture.platform Fixture.desktop
                    (TextContent (lit "two"))
                    (final (pasteContent Fixture.platform Fixture.desktop
                              (TextContent (lit "one")) Fixture.start))))
  = {[2]}
  ∧ keystrokes
      (trace (pasteContent Fixture.platform Fixture.desktop
                (TextContent (lit "one")) Fixture.start)
       ++ trace (pasteContent Fixture.platform Fixture.desktop
                   (TextContent (lit "two"))
                   (final (pasteContent Fixture.platform Fixture.desktop
                             (TextContent (lit "one")) Fixture.start)))
       ++ trace (elapse Fixture.desktop
                   (final (pasteContent Fixture.platform Fixture.desktop
                             (TextContent (lit "two"))
                             (final (pasteContent Fixture.platform Fixture.desktop
                                       (TextContent (lit "one")) Fixture.start))))))
    = [Press KEY_Control_L; Press KEY_v; Release KEY_v; Release KEY_Control_L].
Proof.
  destruct (single_pending_paste Fixture.platform 1 1 Fixture.start
              Fixture.desktop Fixture.desktop Fixture.desktop
              (TextContent (lit "one")) (TextContent (lit "two")))
    as (_ & _ & _ & _ & Hpair).
  - lia.
  - apply reachable_init.
  - destruct Hpair as (_ & Hone & _ & Hkeys); [reflexivity|reflexivity|].
    split; [exact Hone|exact Hkeys].
Defined.

(** C9 as stated fails: with pasting after copying switched off, two paste
    requests in a row are followed by no keystroke sequence at all. *)
Lemma paste_switched_off_no_keystrokes :
  keystrokes
    (trace (pasteContent Fixture.platform Fixture.no_paste
              (TextContent (lit "one")) Fixture.start)
     ++ trace (pasteContent Fixture.platform Fixture.no_paste
                 (TextContent (lit "two"))
                 (final (pasteContent Fixture.platform Fixture.no_paste
                           (TextContent (lit "one")) Fixture.start)))
     ++ trace (elapse Fixture.no_paste
                 (final (pasteContent Fixture.platform Fixture.no_paste
                           (TextContent (lit "two"))
                           (final (pasteContent Fixture.platform Fixture.no_paste
                                     (TextContent (lit "one")) Fixture.start))))))
  = []
  ∧ [] ≠ paste_sequence true
  ∧ [] ≠ paste_sequence false.
Proof.
  split; [|split; discriminate].
  vm_compute. reflexivity.
Qed.
